(* Verification of the profile-picture upload gateway (src/server.js).

   JavaScript strings are modelled as [String.string]; each [ascii] is one
   UTF-16 code unit below 256.  Strings produced by [decodeURIComponent]
   may hold any code unit and are modelled as [list Z].  The S3 client,
   [randomUUID] and the process environment are inputs of the handlers. *)

From Stdlib Require Import String Ascii List ZArith Bool Lia.
From stdpp Require Import gmap strings.

Import ListNotations.
Open Scope string_scope.
Open Scope Z_scope.

(* ------------------------------------------------------------------ *)
(** * JavaScript value helpers *)

Module Js.

(** A property that may be missing ([undefined]) or hold a string. *)
Definition value := option string.

(** Truthiness of a [value]: a missing property and [""] are falsy. *)
Definition truthy (v : value) : bool :=
  match v with
  | Some s => negb (String.eqb s "")
  | None => false
  end.

(** [a || b] *)
Definition or (a b : value) : value := if truthy a then a else b.

(** [String.prototype.includes] *)
Definition includes (s pat : string) : bool :=
  match String.index 0 pat s with Some _ => true | None => false end.

(** [String.prototype.toLowerCase] on code units below 256: A-Z and the
    Latin-1 capitals U+00C0..U+00DE (except U+00D7) move up by 0x20. *)
Definition lower_char (c : ascii) : ascii :=
  let n := nat_of_ascii c in
  if ((65 <=? n) && (n <=? 90))%nat
     || ((192 <=? n) && (n <=? 222) && negb (n =? 215))%nat
  then ascii_of_nat (n + 32) else c.

Fixpoint toLowerCase (s : string) : string :=
  match s with
  | EmptyString => EmptyString
  | String c s' => String (lower_char c) (toLowerCase s')
  end.

(** Regular-expression character equality under the [i] flag without the
    [u] flag: both sides go through Canonicalize (toUpperCase), and a
    non-ASCII character never canonicalizes to an ASCII one, so only a-z
    are folded. *)
Definition canonicalize (c : ascii) : ascii :=
  let n := nat_of_ascii c in
  if ((97 <=? n) && (n <=? 122))%nat then ascii_of_nat (n - 32) else c.

Fixpoint ci_eqb (s t : string) : bool :=
  match s, t with
  | EmptyString, EmptyString => true
  | String c s', String d t' =>
      Ascii.eqb (canonicalize c) (canonicalize d) && ci_eqb s' t'
  | _, _ => false
  end.

(** [s.replace(/\//g, '-')] *)
Fixpoint replace_slashes (s : string) : string :=
  match s with
  | EmptyString => EmptyString
  | String c s' =>
      String (if Ascii.eqb c "/"%char then "-"%char else c) (replace_slashes s')
  end.

(** [s.replace(/\/$/, '')]: drop one trailing slash. *)
Definition strip_trailing_slash (s : string) : string :=
  let n := String.length s in
  match n with
  | O => s
  | S m => if String.eqb (substring m 1 s) "/" then substring 0 m s else s
  end.

End Js.

(* ------------------------------------------------------------------ *)
(** * Node's [path.extname] (posix), translated from its loop *)

Module Path.

Record scan := mkScan {
  startDot : Z; startPart : Z; end_ : Z; matchedSlash : bool; preDotState : Z }.

(** The loop [for (i = path.length - 1; i >= 0; --i)]: [cs] holds the
    characters at indices [i], [i-1], ..., [0]. *)
Fixpoint loop (cs : list ascii) (i : Z) (st : scan) : scan :=
  match cs with
  | [] => st
  | c :: cs' =>
      if Ascii.eqb c "/"%char then
        if negb (matchedSlash st) then
          mkScan (startDot st) (i + 1) (end_ st) (matchedSlash st) (preDotState st)
        else loop cs' (i - 1) st
      else
        let st1 :=
          if end_ st =? -1 then
            mkScan (startDot st) (startPart st) (i + 1) false (preDotState st)
          else st in
        let st2 :=
          if Ascii.eqb c "."%char then
            if startDot st1 =? -1 then
              mkScan i (startPart st1) (end_ st1) (matchedSlash st1) (preDotState st1)
            else if negb (preDotState st1 =? 1) then
              mkScan (startDot st1) (startPart st1) (end_ st1) (matchedSlash st1) 1
            else st1
          else if negb (startDot st1 =? -1) then
            mkScan (startDot st1) (startPart st1) (end_ st1) (matchedSlash st1) (-1)
          else st1 in
        loop cs' (i - 1) st2
  end.

Definition extname (path : string) : string :=
  let st := loop (rev (list_ascii_of_string path))
                 (Z.of_nat (String.length path) - 1)
                 (mkScan (-1) 0 (-1) true 0) in
  if (startDot st =? -1) || (end_ st =? -1) || (preDotState st =? 0)
     || ((preDotState st =? 1) && (startDot st =? end_ st - 1)
         && (startDot st =? startPart st + 1))
  then ""
  else substring (Z.to_nat (startDot st)) (Z.to_nat (end_ st - startDot st)) path.

End Path.

(* ------------------------------------------------------------------ *)
(** * [decodeURIComponent] (ECMA-262 Decode with an empty reserved set) *)

Module Uri.

Definition code (c : ascii) : Z := Z.of_nat (nat_of_ascii c).

Definition units (s : string) : list Z := map code (list_ascii_of_string s).

Definition hex_digit (c : ascii) : option Z :=
  let n := code c in
  if (48 <=? n) && (n <=? 57) then Some (n - 48)
  else if (65 <=? n) && (n <=? 70) then Some (n - 55)
  else if (97 <=? n) && (n <=? 102) then Some (n - 87)
  else None.

(** Number of leading one bits of an octet, capped at 5. *)
Definition leading_ones (b : Z) : nat :=
  if b <? 128 then 0 else if b <? 192 then 1 else if b <? 224 then 2
  else if b <? 240 then 3 else if b <? 248 then 4 else 5.

(** The [n - 1] continuation escapes [%XY] with [XY] of the form 10xxxxxx. *)
Fixpoint continuations (n : nat) (cs : list ascii) : option (list Z * list ascii) :=
  match n with
  | O => Some ([], cs)
  | S n' =>
      match cs with
      | c :: h1 :: h2 :: rest =>
          if Ascii.eqb c "%"%char then
            match hex_digit h1, hex_digit h2 with
            | Some a, Some b =>
                let B := 16 * a + b in
                if Z.land B 192 =? 128 then
                  match continuations n' rest with
                  | Some (bs, r) => Some (B :: bs, r)
                  | None => None
                  end
                else None
            | _, _ => None
            end
          else None
      | _ => None
      end
  end.

(** The code point of a UTF-8 sequence; [None] when it is overlong, a
    surrogate or above U+10FFFF. *)
Definition utf8_code_point (b0 : Z) (bs : list Z) : option Z :=
  match bs with
  | [b1] =>
      let v := Z.lor (Z.shiftl (Z.land b0 31) 6) (Z.land b1 63) in
      if 128 <=? v then Some v else None
  | [b1; b2] =>
      let v := Z.lor (Z.lor (Z.shiftl (Z.land b0 15) 12) (Z.shiftl (Z.land b1 63) 6))
                     (Z.land b2 63) in
      if (2048 <=? v) && negb ((55296 <=? v) && (v <=? 57343)) then Some v else None
  | [b1; b2; b3] =>
      let v := Z.lor (Z.lor (Z.shiftl (Z.land b0 7) 18) (Z.shiftl (Z.land b1 63) 12))
                     (Z.lor (Z.shiftl (Z.land b2 63) 6) (Z.land b3 63)) in
      if (65536 <=? v) && (v <=? 1114111) then Some v else None
  | _ => None
  end.

Definition utf16 (v : Z) : list Z :=
  if v <? 65536 then [v]
  else [55296 + Z.shiftr (v - 65536) 10; 56320 + Z.land (v - 65536) 1023].

(** [fuel] is one more than the remaining input, every step consumes at
    least one character. *)
Fixpoint decode (fuel : nat) (cs : list ascii) : option (list Z) :=
  match fuel with
  | O => None
  | S fuel' =>
      match cs with
      | [] => Some []
      | c :: rest =>
          if Ascii.eqb c "%"%char then
            match rest with
            | h1 :: h2 :: rest' =>
                match hex_digit h1, hex_digit h2 with
                | Some a, Some b =>
                    let B := 16 * a + b in
                    match leading_ones B with
                    | O => option_map (cons B) (decode fuel' rest')
                    | 1%nat => None
                    | n =>
                        if (5 <=? n)%nat then None else
                        match continuations (n - 1) rest' with
                        | Some (bs, r) =>
                            match utf8_code_point B bs with
                            | Some v => option_map (app (utf16 v)) (decode fuel' r)
                            | None => None
                            end
                        | None => None
                        end
                    end
                | _, _ => None
                end
            | _ => None
            end
          else option_map (cons (code c)) (decode fuel' rest)
      end
  end.

(** [None] is the [URIError] thrown on a malformed escape. *)
Definition decodeURIComponent (s : string) : option (list Z) :=
  decode (S (String.length s)) (list_ascii_of_string s).

End Uri.

(* ------------------------------------------------------------------ *)
(** * The server *)

Module Server.

(** The process environment read by the handlers. *)
Record Env := mkEnv {
  S3_PROFILE_PREFIX : Js.value;
  S3_PUBLIC_BASE_URL : Js.value }.

(** [process.env.S3_PROFILE_PREFIX || 'profile-pics'] *)
Definition PROFILE_PREFIX (env : Env) : string :=
  match Js.or (S3_PROFILE_PREFIX env) (Some "profile-pics") with
  | Some s => s
  | None => "profile-pics"
  end.

(** [req.file] as multer's memory storage fills it. *)
Record File := mkFile {
  originalname : string;
  mimetype : string;
  buffer : list Byte.byte }.

(** The parts of an upload request the handler reads. *)
Record UploadRequest := mkUploadRequest {
  query_userId : Js.value;
  query_user_id : Js.value;
  body_userId : Js.value;
  body_user_id : Js.value;
  file : option File }.

(** An object of the bucket. *)
Record Obj := mkObj { Body : list Byte.byte; ContentType : string; CacheControl : string }.

(** An entry of [ListObjectsV2]'s [Contents]. *)
Record S3Object := mkS3Object { Key : string; Size : Z; LastModified : string }.

(** The requests the handlers send through the S3 client, in order. *)
Inductive Call :=
| PutObject (key : string) (contentType : string) (cacheControl : string)
| ListObjects (prefix : string) (maxKeys : Z)
| SignGetObject (key : list Z) (expiresIn : Z).

(** The outcomes of the S3 client: [Some msg] / [inl msg] is a rejected
    promise whose error has message [msg]. *)
Record Client := mkClient {
  put : string -> list Byte.byte -> string -> string -> option string;
  signedUrl : list Z -> Z -> string + string;
  listObjects : string -> Z -> string + option (list S3Object) }.

Record Item := mkItem { item_key : string; item_size : Z; item_lastModified : string;
                        item_url : option string }.

Inductive ResBody :=
| UploadOk (url : string) (key : string)
| ErrorBody (error : string)
| UrlBody (url : string)
| ListBody (prefix : string) (count : Z) (items : list Item).

Record Response := mkResponse { status : Z; body : ResBody }.

Abbreviation Store := (gmap string Obj).

(** [err.message || fallback] *)
Definition message_or (msg fallback : string) : string :=
  if String.eqb msg "" then fallback else msg.

Definition dq : string := String "034"%char EmptyString.

(* ---- multer ---- *)

Inductive MwError :=
| MulterError (code : string) (message : string)
| PlainError (message : string).

Definition ONLY_IMAGES : string :=
  "Only images (.jpeg, .jpg, .png, .gif, .webp) are allowed.".

Definition allowedMime : list string := ["jpeg"; "jpg"; "pjpeg"; "png"; "gif"; "webp"].

(** [/^image\/(jpeg|jpg|pjpeg|png|gif|webp)$/i.test(m)] *)
Definition allowedMime_test (m : string) : bool :=
  existsb (fun alt => Js.ci_eqb m ("image/" ++ alt)) allowedMime.

Definition allowedExt : list string := [".jpg"; ".jpeg"; ".png"; ".gif"; ".webp"].

(** The [fileFilter] option: [None] is [cb(null, true)]. *)
Definition fileFilter (f : File) : option MwError :=
  if allowedMime_test (mimetype f) then None
  else
    let ext := Js.toLowerCase (Path.extname (originalname f)) in
    if existsb (String.eqb ext) allowedExt then None
    else Some (PlainError ONLY_IMAGES).

(** [limits: { fileSize: 5 * 1024 * 1024 }] *)
Definition fileSize : Z := 5 * 1024 * 1024.

(** Modelled from multer's documented contract (its code is not part of
    this repository): [fileFilter] runs when the file part starts, before
    its bytes are read, and a rejection aborts the request with that error;
    an accepted file longer than [limits.fileSize] bytes aborts it with
    [MulterError('LIMIT_FILE_SIZE')] (message "File too large"). *)
Definition multer_check (f : File) : option MwError :=
  match fileFilter f with
  | Some e => Some e
  | None =>
      if Z.of_nat (length (buffer f)) >? fileSize
      then Some (MulterError "LIMIT_FILE_SIZE" "File too large")
      else None
  end.

(** The error-handling middleware registered last. *)
Definition error_middleware (e : MwError) : Response :=
  match e with
  | MulterError code msg =>
      if String.eqb code "LIMIT_FILE_SIZE"
      then mkResponse 400 (ErrorBody "File too large. Max 5 MB.")
      else if Js.includes msg "Only images" then mkResponse 400 (ErrorBody msg)
      else mkResponse 500 (ErrorBody (message_or msg "Server error"))
  | PlainError msg =>
      if Js.includes msg "Only images" then mkResponse 400 (ErrorBody msg)
      else mkResponse 500 (ErrorBody (message_or msg "Server error"))
  end.

(* ---- POST /api/upload/profile-pic ---- *)

(** [req.query?.userId || req.query?.user_id || req.body?.userId || req.body?.user_id] *)
Definition rawUserId (req : UploadRequest) : Js.value :=
  Js.or (Js.or (Js.or (query_userId req) (query_user_id req)) (body_userId req))
        (body_user_id req).

(** [(rawUserId || randomUUID()).toString().replace(/\//g, '-')]; [uuid] is
    the value [randomUUID()] returns. *)
Definition userId (raw : Js.value) (uuid : string) : string :=
  Js.replace_slashes (match Js.or raw (Some uuid) with Some s => s | None => uuid end).

(** [path.extname(req.file.originalname) || '.jpg'] *)
Definition upload_ext (name : string) : string :=
  match Js.or (Some (Path.extname name)) (Some ".jpg") with
  | Some s => s
  | None => ".jpg"
  end.

(** [`${PROFILE_PREFIX}/${userId}${ext}`] *)
Definition upload_key (prefix uid ext : string) : string := prefix ++ "/" ++ uid ++ ext.

(** [req.file.mimetype && /^image\//.test(req.file.mimetype) ? ... : ...] *)
Definition upload_mime (mimetype ext : string) : string :=
  if Js.truthy (Some mimetype) && String.prefix "image/" mimetype then mimetype
  else if String.eqb ext ".png" then "image/png"
  else if String.eqb ext ".gif" then "image/gif"
  else if String.eqb ext ".webp" then "image/webp"
  else "image/jpeg".

Definition UPLOAD_CACHE_CONTROL : string := "public, max-age=31536000".

(** [expiresIn: 60 * 60 * 24 * 6] *)
Definition UPLOAD_EXPIRES_IN : Z := 60 * 60 * 24 * 6.

(** The route handler, run once multer has accepted the request. *)
Definition upload_handler (env : Env) (c : Client) (uuid : string) (st : Store)
    (req : UploadRequest) : Response * Store * list Call :=
  match file req with
  | None =>
      (mkResponse 400 (ErrorBody ("No file uploaded. Use field name " ++ dq ++ "file" ++ dq ++ ".")),
       st, [])
  | Some f =>
      let uid := userId (rawUserId req) uuid in
      let ext := upload_ext (originalname f) in
      let key := upload_key (PROFILE_PREFIX env) uid ext in
      let mime := upload_mime (mimetype f) ext in
      let put_call := PutObject key mime UPLOAD_CACHE_CONTROL in
      match put c key (buffer f) mime UPLOAD_CACHE_CONTROL with
      | Some msg =>
          (mkResponse 500 (ErrorBody (message_or msg "Upload failed")), st, [put_call])
      | None =>
          let st' := <[key := mkObj (buffer f) mime UPLOAD_CACHE_CONTROL]> st in
          if Js.truthy (S3_PUBLIC_BASE_URL env) then
            let baseUrl := match S3_PUBLIC_BASE_URL env with Some b => b | None => "" end in
            (mkResponse 201 (UploadOk (Js.strip_trailing_slash baseUrl ++ "/" ++ key) key),
             st', [put_call])
          else
            let sign_call := SignGetObject (Uri.units key) UPLOAD_EXPIRES_IN in
            match signedUrl c (Uri.units key) UPLOAD_EXPIRES_IN with
            | inl msg =>
                (mkResponse 500 (ErrorBody (message_or msg "Upload failed")), st',
                 [put_call; sign_call])
            | inr url => (mkResponse 201 (UploadOk url key), st', [put_call; sign_call])
            end
      end
  end.

(** [app.post('/api/upload/profile-pic', upload.single('file'), handler)]:
    multer first, its rejection goes to the error middleware. *)
Definition upload_route (env : Env) (c : Client) (uuid : string) (st : Store)
    (req : UploadRequest) : Response * Store * list Call :=
  match file req with
  | Some f =>
      match multer_check f with
      | Some e => (error_middleware e, st, [])
      | None => upload_handler env c uuid st req
      end
  | None => upload_handler env c uuid st req
  end.

(* ---- GET /api/profile-pics ---- *)

Definition LIST_MAX_KEYS : Z := 100.

Definition profile_pics_route (env : Env) (c : Client) (st : Store)
    : Response * Store * list Call :=
  let prefix := PROFILE_PREFIX env ++ "/" in
  let list_call := ListObjects prefix LIST_MAX_KEYS in
  match listObjects c prefix LIST_MAX_KEYS with
  | inl msg => (mkResponse 500 (ErrorBody (message_or msg "Failed to list")), st, [list_call])
  | inr contents =>
      let baseUrl := Js.strip_trailing_slash
                       (match Js.or (S3_PUBLIC_BASE_URL env) (Some "") with
                        | Some b => b | None => "" end) in
      let items := map (fun o =>
                     let key := Key o in
                     let url := if Js.truthy (Some baseUrl)
                                then Some (baseUrl ++ "/" ++ key) else None in
                     mkItem key (Size o) (LastModified o) url)
                   (match contents with Some l => l | None => [] end) in
      (mkResponse 200 (ListBody (PROFILE_PREFIX env) (Z.of_nat (length items)) items), st,
       [list_call])
  end.

(* ---- GET /api/profile-pic/:key ---- *)

Definition GET_URL_EXPIRES_IN : Z := 3600.

(** [param] is [req.params.key] as the router hands it over. *)
Definition profile_pic_route (c : Client) (st : Store) (param : string)
    : Response * Store * list Call :=
  match Uri.decodeURIComponent param with
  | None => (mkResponse 500 (ErrorBody "URI malformed"), st, [])
  | Some key =>
      let sign_call := SignGetObject key GET_URL_EXPIRES_IN in
      match signedUrl c key GET_URL_EXPIRES_IN with
      | inl msg => (mkResponse 500 (ErrorBody (message_or msg "Failed to get URL")), st, [sign_call])
      | inr url => (mkResponse 200 (UrlBody url), st, [sign_call])
      end
  end.

End Server.

(* ------------------------------------------------------------------ *)
(** * Process start, the health route and the JSON bodies *)

Module Startup.
Import Server.

(** [process.env] *)
Definition ProcEnv := string -> Js.value.

Definition requiredEnv : list string :=
  ["AWS_ACCESS_KEY_ID"; "AWS_SECRET_ACCESS_KEY"; "AWS_REGION"; "S3_BUCKET"].

Inductive Outcome :=
| Exit (code : Z) (stderr : string)
| Listening (port : string).

(** [for (const key of requiredEnv) if (!process.env[key]) { console.error(...); process.exit(1); }] *)
Fixpoint check_env (penv : ProcEnv) (keys : list string) : option string :=
  match keys with
  | [] => None
  | k :: ks =>
      if negb (Js.truthy (penv k)) then Some ("Missing required env: " ++ k)
      else check_env penv ks
  end.

(** [process.env.PORT || 4000] *)
Definition PORT (penv : ProcEnv) : string :=
  match Js.or (penv "PORT") (Some "4000") with Some p => p | None => "4000" end.

(** The module's top level: the env check, then [app.listen(PORT)]. *)
Definition start (penv : ProcEnv) : Outcome :=
  match check_env penv requiredEnv with
  | Some msg => Exit 1 msg
  | None => Listening (PORT penv)
  end.

(** The configuration the handlers read. *)
Definition handler_env (penv : ProcEnv) : Env :=
  mkEnv (penv "S3_PROFILE_PREFIX") (penv "S3_PUBLIC_BASE_URL").

End Startup.

Module Json.

#[warnings="-register-all"]
Inductive json :=
| JNull
| JBool (b : bool)
| JNum (z : Z)
| JStr (s : string)
| JArr (l : list json)
| JObj (fields : list (string * json)).

(** [data?.k] *)
Definition field (j : json) (k : string) : option json :=
  match j with
  | JObj fs => option_map snd (find (fun kv => String.eqb (fst kv) k) fs)
  | _ => None
  end.

(** Truthiness of [data?.k]; a missing field is [undefined]. *)
Definition truthy (v : option json) : bool :=
  match v with
  | None | Some JNull => false
  | Some (JBool b) => b
  | Some (JNum z) => negb (z =? 0)
  | Some (JStr s) => negb (String.eqb s "")
  | Some (JArr _) | Some (JObj _) => true
  end.

End Json.

Module Bodies.
Import Server Json.

Definition item_json (it : Item) : json :=
  JObj [("key", JStr (item_key it)); ("size", JNum (item_size it));
        ("lastModified", JStr (item_lastModified it));
        ("url", match item_url it with Some u => JStr u | None => JNull end)].

(** What [res.json(...)] sends for each body. *)
Definition body_json (b : ResBody) : json :=
  match b with
  | UploadOk url key => JObj [("success", JBool true); ("url", JStr url); ("key", JStr key)]
  | ErrorBody e => JObj [("error", JStr e)]
  | UrlBody url => JObj [("url", JStr url)]
  | ListBody prefix count items =>
      JObj [("prefix", JStr prefix); ("count", JNum count); ("items", JArr (map item_json items))]
  end.

(** [GET /health] *)
Definition health_route : Z * json :=
  (200, JObj [("ok", JBool true); ("service", JStr "profile-pic-api")]).

End Bodies.

(* ------------------------------------------------------------------ *)
(** * The upload handler of the server listed in src/README.md *)

Module Readme.
Import Server.

Definition NO_STORE : string := "no-store, max-age=0".

(** The handler of the README's server: the identifier is required, the
    key carries no extension, the extension only feeds the content type. *)
Definition upload_handler (env : Env) (c : Client) (st : Store) (req : UploadRequest)
    : Response * Store * list Call :=
  match file req with
  | None =>
      (mkResponse 400 (ErrorBody ("No file uploaded. Use field name " ++ dq ++ "file" ++ dq ++ ".")),
       st, [])
  | Some f =>
      match rawUserId req with
      | Some raw =>
          if Js.truthy (Some raw) then
            let uid := Js.replace_slashes raw in
            let key := PROFILE_PREFIX env ++ "/" ++ uid in
            let ext := Js.toLowerCase (match Js.or (Some (Path.extname (originalname f))) (Some "") with
                                       | Some e => e | None => "" end) in
            let mime := upload_mime (mimetype f) ext in
            let put_call := PutObject key mime NO_STORE in
            match put c key (buffer f) mime NO_STORE with
            | Some msg =>
                (mkResponse 500 (ErrorBody (message_or msg "Upload failed")), st, [put_call])
            | None =>
                let st' := <[key := mkObj (buffer f) mime NO_STORE]> st in
                if Js.truthy (S3_PUBLIC_BASE_URL env) then
                  let baseUrl := match S3_PUBLIC_BASE_URL env with Some b => b | None => "" end in
                  (mkResponse 201 (UploadOk (Js.strip_trailing_slash baseUrl ++ "/" ++ key) key),
                   st', [put_call])
                else
                  let sign_call := SignGetObject (Uri.units key) UPLOAD_EXPIRES_IN in
                  match signedUrl c (Uri.units key) UPLOAD_EXPIRES_IN with
                  | inl msg =>
                      (mkResponse 500 (ErrorBody (message_or msg "Upload failed")), st',
                       [put_call; sign_call])
                  | inr url => (mkResponse 201 (UploadOk url key), st', [put_call; sign_call])
                  end
            end
          else (mkResponse 400 (ErrorBody "Missing userId (Shopify customer ID)."), st, [])
      | None => (mkResponse 400 (ErrorBody "Missing userId (Shopify customer ID)."), st, [])
      end
  end.

(** The same multer configuration guards it. *)
Definition upload_route (env : Env) (c : Client) (st : Store) (req : UploadRequest)
    : Response * Store * list Call :=
  match file req with
  | Some f =>
      match multer_check f with
      | Some e => (error_middleware e, st, [])
      | None => upload_handler env c st req
      end
  | None => upload_handler env c st req
  end.

End Readme.

(* ------------------------------------------------------------------ *)
(** * src/test-api.js against the server *)

Module TestApi.
Import Server.

Definition bytes_of (s : string) : list Byte.byte := map byte_of_ascii (list_ascii_of_string s).

(** The form [testUpload] posts; [now] is the text of [Date.now()]. *)
Definition upload_form (now : string) : UploadRequest :=
  mkUploadRequest None None (Some ("test-user-" ++ now)) None
    (Some (mkFile "test.jpg" "image/jpeg" (bytes_of "fake image content"))).

(** [testHealth]: passes when [data?.ok] is truthy. *)
Definition testHealth (data : Json.json) : bool := Json.truthy (Json.field data "ok").

(** [testUpload]: passes when [res.ok && data?.url]. *)
Definition testUpload (r : Response) : bool :=
  ((200 <=? status r) && (status r <=? 299))
  && Json.truthy (Json.field (Bodies.body_json (body r)) "url").

(** The script's exit code: [testHealth], then [testUpload]; a thrown
    error ends it with [process.exit(1)]. *)
Definition main (env : Env) (c : Client) (uuid : string) (st : Store) (now : string) : Z :=
  if testHealth (snd Bodies.health_route) then
    if testUpload (fst (fst (upload_route env c uuid st (upload_form now)))) then 0 else 1
  else 1.

End TestApi.

(* ------------------------------------------------------------------ *)
(** * Definitions that follow the spec's words, and observations *)

Module Spec.
Import Server.

(** The content types the spec lists, lower-cased. *)
Definition image_types : list string :=
  ["image/jpeg"; "image/jpg"; "image/pjpeg"; "image/png"; "image/gif"; "image/webp"].

(** The extensions the spec lists. *)
Definition image_exts : list string := [".jpg"; ".jpeg"; ".png"; ".gif"; ".webp"].

(** The spec's Content-Type Resolver; [ext] is the file's extension, [""]
    when there is none. *)
Definition resolve_mime (declared ext : string) : string :=
  if String.prefix "image/" declared then declared
  else if String.eqb ext ".png" then "image/png"
  else if String.eqb ext ".gif" then "image/gif"
  else if String.eqb ext ".webp" then "image/webp"
  else "image/jpeg".

(** The first field holding a non-empty string, in the order given. *)
Fixpoint first_nonempty (vs : list Js.value) : Js.value :=
  match vs with
  | [] => None
  | Some s :: vs' => if String.eqb s "" then first_nonempty vs' else Some s
  | None :: vs' => first_nonempty vs'
  end.

Definition identifier_fields (req : UploadRequest) : list Js.value :=
  [query_userId req; query_user_id req; body_userId req; body_user_id req].

Definition hex_lower (c : ascii) : bool :=
  let n := nat_of_ascii c in (((48 <=? n) && (n <=? 57)) || ((97 <=? n) && (n <=? 102)))%nat.

(** The shape of a [crypto.randomUUID()] result: 36 characters, lower-case
    hexadecimal digits with [-] at positions 8, 13, 18 and 23. *)
Definition uuid_format (u : string) : bool :=
  (String.length u =? 36)%nat &&
  forallb (fun i => let c := match String.get i u with Some c => c | None => "-"%char end in
                    if existsb (Nat.eqb i) [8; 13; 18; 23]%nat then Ascii.eqb c "-"%char
                    else hex_lower c)
          (seq 0 36).

(** The key of the [PutObject] request a run of a handler sends first. *)
Definition put_key (res : Response * Store * list Call) : option string :=
  match snd res with
  | PutObject k _ _ :: _ => Some k
  | _ => None
  end.

Definition put_content_type (res : Response * Store * list Call) : option string :=
  match snd res with
  | PutObject _ t _ :: _ => Some t
  | _ => None
  end.

Definition is_sign (cl : Call) : bool :=
  match cl with SignGetObject _ _ => true | _ => false end.

End Spec.

(* ------------------------------------------------------------------ *)
(** * Concrete inputs *)

Module Sample.
Import Server.

Definition env_signed : Env := mkEnv None None.
Definition env_public : Env := mkEnv None (Some "https://cdn.example.com").

Definition signed_url (k : list Z) (ttl : Z) : string := "https://bucket.s3.amazonaws.com/signed".

(** Every request succeeds. *)
Definition client_ok : Client :=
  mkClient (fun _ _ _ _ => None)
           (fun k t => inr (signed_url k t))
           (fun _ _ => inr (Some [mkS3Object "profile-pics/u.jpg" 10 "2026-01-01"])).

(** The put succeeds, signing fails. *)
Definition client_sign_fails : Client :=
  mkClient (fun _ _ _ _ => None)
           (fun _ _ => inl "The security token included in the request is invalid.")
           (fun _ _ => inr None).

Definition uuid1 : string := "0b7e6c1a-3f2d-4a5b-9c8d-1e2f3a4b5c6d".
Definition uuid2 : string := "9f8e7d6c-5b4a-4c3d-8e2f-1a0b9c8d7e6f".

Definition png_file : File := mkFile "a.png" "image/png" [Byte.x89; Byte.x50].

Definition req_with (uid : Js.value) (f : File) : UploadRequest :=
  mkUploadRequest None None uid None (Some f).

Definition env_slash : Env := mkEnv None (Some "/").

(** A text file one byte over the limit. *)
Definition big_text_file : File :=
  mkFile "notes.txt" "text/plain" (repeat Byte.x00 (Z.to_nat (5 * 1024 * 1024 + 1))).

Definition gid_req : UploadRequest := req_with (Some "gid://shopify/Customer/123") png_file.

Definition run_public : Response * Store * list Call :=
  upload_route env_public client_ok uuid1 ∅ gid_req.

Definition run_signed : Response * Store * list Call :=
  upload_route env_signed client_ok uuid1 ∅ gid_req.

Definition run_sign_fails : Response * Store * list Call :=
  upload_route env_signed client_sign_fails uuid1 ∅ (req_with (Some "u1") png_file).

End Sample.

(** Characters folded by the [i] flag on the pattern side. *)
Module Fold.

Definition fold_target (d : ascii) : bool :=
  let n := nat_of_ascii d in (((97 <=? n) && (n <=? 122)) || (n =? 47))%nat.

Fixpoint all_fold_targets (t : string) : bool :=
  match t with
  | EmptyString => true
  | String d t' => fold_target d && all_fold_targets t'
  end.

Definition fold_targets : list nat := 47%nat :: seq 97 26.

Definition char_prop (i j : nat) : bool :=
  Bool.eqb (Ascii.eqb (Js.canonicalize (ascii_of_nat i)) (Js.canonicalize (ascii_of_nat j)))
           (Ascii.eqb (Js.lower_char (ascii_of_nat i)) (ascii_of_nat j)).

End Fold.

Module Sample2.
Import Server Sample.

(** Images of exactly 5 MiB and of 5 MiB + 1 bytes. *)
Definition png_5mib : File :=
  mkFile "big.png" "image/png" (repeat Byte.x00 (Z.to_nat (5 * 1024 * 1024))).
Definition png_5mib_1 : File :=
  mkFile "big.png" "image/png" (repeat Byte.x00 (Z.to_nat (5 * 1024 * 1024 + 1))).

(** The listing returns the one object stored by an upload of "u1". *)
Definition client_list_u1 : Client :=
  mkClient (fun _ _ _ _ => None)
           (fun k t => inr (signed_url k t))
           (fun _ _ => inr (Some [mkS3Object "profile-pics/u1.png" 2 "2026-01-01"])).

(** The put is refused. *)
Definition client_put_fails : Client :=
  mkClient (fun _ _ _ _ => Some "Access Denied")
           (fun k t => inr (signed_url k t))
           (fun _ _ => inr None).

Definition png_file_b : File := mkFile "b.png" "image/png" [Byte.x89; Byte.x51].
Definition gif_file : File := mkFile "b.gif" "image/gif" [Byte.x47; Byte.x49].
Definition octet_png : File := mkFile "photo.PNG" "application/octet-stream" [Byte.x89].

Definition gid : Js.value := Some "gid://shopify/Customer/123".

Definition run_a : Response * Store * list Call :=
  upload_route env_public client_ok uuid1 ∅ (req_with gid png_file).
Definition run_b : Response * Store * list Call :=
  upload_route env_public client_ok uuid2 (snd (fst run_a)) (req_with gid png_file_b).

Definition readme_a : Response * Store * list Call :=
  Readme.upload_route env_public client_ok ∅ (req_with gid png_file).
Definition readme_b : Response * Store * list Call :=
  Readme.upload_route env_public client_ok (snd (fst readme_a)) (req_with gid gif_file).

End Sample2.

(** The invariant of [Path.loop] over the characters [l] of the path. *)
Module ExtInv.
Import Path.

Definition no_slash_between (l : list ascii) (a b : Z) : Prop :=
  forall k, a <= k < b -> nth_error l (Z.to_nat k) <> Some "/"%char.

(** Before the character at index [i] is read. *)
Definition loop_inv (l : list ascii) (i : Z) (st : scan) : Prop :=
  (end_ st <> -1 ->
   matchedSlash st = false /\ i < end_ st <= Z.of_nat (length l) /\
   no_slash_between l (i + 1) (end_ st)) /\
  (startDot st <> -1 ->
   end_ st <> -1 /\ i < startDot st < end_ st /\
   nth_error l (Z.to_nat (startDot st)) = Some "."%char).

(** When the loop is left. *)
Definition loop_out (l : list ascii) (st : scan) : Prop :=
  startDot st <> -1 ->
  0 <= startDot st < end_ st /\ end_ st <= Z.of_nat (length l) /\
  nth_error l (Z.to_nat (startDot st)) = Some "."%char /\
  no_slash_between l (startDot st) (end_ st).

End ExtInv.

Example extname_png : Path.extname "a.png" = ".png". Proof. reflexivity. Qed.
Example extname_upper : Path.extname "photo.PNG" = ".PNG". Proof. reflexivity. Qed.
Example extname_dotfile : Path.extname ".png" = "". Proof. reflexivity. Qed.
Example extname_none : Path.extname "photo" = "". Proof. reflexivity. Qed.
Example extname_trail : Path.extname "a." = ".". Proof. reflexivity. Qed.
Example extname_multi : Path.extname "a.tar.gz" = ".gz". Proof. reflexivity. Qed.
Example extname_dir : Path.extname "d.x/b" = "". Proof. reflexivity. Qed.
Example extname_slash : Path.extname "d/b.gif/" = ".gif". Proof. reflexivity. Qed.
Example extname_dotdot : Path.extname ".." = "". Proof. reflexivity. Qed.
Example lower_ex : Js.toLowerCase "A.PnG" = "a.png". Proof. reflexivity. Qed.
Example dec_slash : Uri.decodeURIComponent "profile-pics%2Fu.jpg" = Some (Uri.units "profile-pics/u.jpg"). Proof. reflexivity. Qed.
Example dec_pct : Uri.decodeURIComponent "100%" = None. Proof. reflexivity. Qed.
Example dec_e9 : Uri.decodeURIComponent "%C3%A9" = Some [233]. Proof. reflexivity. Qed.
Example dec_euro : Uri.decodeURIComponent "%E2%82%AC" = Some [8364]. Proof. reflexivity. Qed.
Example dec_emoji : Uri.decodeURIComponent "%F0%9F%98%80" = Some [55357; 56832]. Proof. reflexivity. Qed.
Example dec_overlong : Uri.decodeURIComponent "%C0%80" = None. Proof. reflexivity. Qed.
Example dec_surr : Uri.decodeURIComponent "%ED%A0%80" = None. Proof. reflexivity. Qed.
Example dec_cont : Uri.decodeURIComponent "%C3x" = None. Proof. reflexivity. Qed.
Example filter_ok : Server.fileFilter (Server.mkFile "x" "IMAGE/PNG" []) = None. Proof. reflexivity. Qed.
Example filter_ext : Server.fileFilter (Server.mkFile "a.JPG" "application/octet-stream" []) = None. Proof. reflexivity. Qed.
Example filter_bad : Server.fileFilter (Server.mkFile "notes.txt" "text/plain" []) = Some (Server.PlainError Server.ONLY_IMAGES). Proof. reflexivity. Qed.

Example route_ok : Server.upload_route Sample.env_public Sample.client_ok Sample.uuid1 ∅
  (Sample.req_with (Some "gid://shopify/Customer/123") Sample.png_file) =
  (Server.mkResponse 201 (Server.UploadOk "https://cdn.example.com/profile-pics/gid:--shopify-Customer-123.png"
     "profile-pics/gid:--shopify-Customer-123.png"),
   <["profile-pics/gid:--shopify-Customer-123.png" := Server.mkObj [Byte.x89; Byte.x50] "image/png" Server.UPLOAD_CACHE_CONTROL]> ∅,
   [Server.PutObject "profile-pics/gid:--shopify-Customer-123.png" "image/png" Server.UPLOAD_CACHE_CONTROL]).
Proof. reflexivity. Qed.
Example uuid_ok : Spec.uuid_format Sample.uuid1 = true. Proof. reflexivity. Qed.

(* ------------------------------------------------------------------ *)
(** * Lemmas on the string helpers *)

Module Facts.
Import Server Fold.

Lemma char_table_ok :
  forallb (fun i => forallb (char_prop i) fold_targets) (seq 0 256) = true.
Proof. vm_compute. reflexivity. Qed.

Lemma ascii_in_table (c : ascii) : In (nat_of_ascii c) (seq 0 256).
Proof. apply in_seq. pose proof (nat_ascii_bounded c). lia. Qed.

Lemma fold_target_in (d : ascii) : fold_target d = true -> In (nat_of_ascii d) fold_targets.
Proof.
  unfold fold_target, fold_targets. intros H.
  apply orb_prop in H as [H|H].
  - apply andb_prop in H as [H1 H2]. apply Nat.leb_le in H1, H2.
    right. apply in_seq. lia.
  - apply Nat.eqb_eq in H. left. lia.
Qed.

(** Under the [i] flag a character matches a lower-case letter or [/]
    exactly when its lower-case form is that character. *)
Lemma ci_char (c d : ascii) :
  fold_target d = true ->
  Ascii.eqb (Js.canonicalize c) (Js.canonicalize d) = Ascii.eqb (Js.lower_char c) d.
Proof.
  intros Hd.
  assert (T : char_prop (nat_of_ascii c) (nat_of_ascii d) = true).
  { pose proof char_table_ok as T.
    rewrite forallb_forall in T.
    specialize (T _ (ascii_in_table c)). rewrite forallb_forall in T.
    exact (T _ (fold_target_in d Hd)). }
  unfold char_prop in T. rewrite !ascii_nat_embedding in T.
  apply Bool.eqb_prop in T. exact T.
Qed.

Lemma ci_eqb_lower (s t : string) :
  all_fold_targets t = true -> Js.ci_eqb s t = String.eqb (Js.toLowerCase s) t.
Proof.
  revert t; induction s as [|c s IH]; intros [|d t] Ht; simpl; try reflexivity.
  simpl in Ht. apply andb_prop in Ht as [Hd Ht].
  rewrite ci_char by exact Hd. rewrite IH by exact Ht. reflexivity.
Qed.

Lemma allowedMime_test_lower (m : string) :
  allowedMime_test m = existsb (String.eqb (Js.toLowerCase m)) Spec.image_types.
Proof.
  unfold allowedMime_test, allowedMime, Spec.image_types; simpl existsb.
  rewrite !ci_eqb_lower by reflexivity. reflexivity.
Qed.

Lemma existsb_eqb_In (x : string) (l : list string) :
  existsb (String.eqb x) l = true <-> In x l.
Proof.
  rewrite existsb_exists. split.
  - intros [y [Hy E]]. apply String.eqb_eq in E. subst. exact Hy.
  - intros H. exists x. split; [exact H | apply String.eqb_refl].
Qed.

Lemma upload_route_accepted env c uuid st req f :
  file req = Some f -> multer_check f = None ->
  upload_route env c uuid st req = upload_handler env c uuid st req.
Proof. intros Hf Hm. unfold upload_route. rewrite Hf, Hm. reflexivity. Qed.

Lemma upload_route_rejected env c uuid st req f e :
  file req = Some f -> multer_check f = Some e ->
  upload_route env c uuid st req = (error_middleware e, st, []).
Proof. intros Hf Hm. unfold upload_route. rewrite Hf, Hm. reflexivity. Qed.

(** The first request the upload handler sends is the [PutObject]. *)
Lemma upload_handler_put env c uuid st req f :
  file req = Some f ->
  let ext := upload_ext (originalname f) in
  exists rest,
    snd (upload_handler env c uuid st req) =
    PutObject (upload_key (PROFILE_PREFIX env) (userId (rawUserId req) uuid) ext)
              (upload_mime (mimetype f) ext) UPLOAD_CACHE_CONTROL :: rest.
Proof.
  intros Hf ext. unfold upload_handler. rewrite Hf.
  destruct (put c _ _ _ _); [eexists; reflexivity|].
  destruct (Js.truthy (S3_PUBLIC_BASE_URL env)); [eexists; reflexivity|].
  destruct (signedUrl c _ _); eexists; reflexivity.
Qed.


(** [||] is associative. *)
Lemma or_assoc (a b x : Js.value) : Js.or (Js.or a b) x = Js.or a (Js.or b x).
Proof. unfold Js.or. destruct (Js.truthy a) eqn:E; [rewrite E|]; reflexivity. Qed.

Lemma or_first_nonempty (l : list Js.value) (x : Js.value) :
  Js.or (Spec.first_nonempty l) x = fold_right Js.or x l.
Proof.
  induction l as [|[a|] l IH]; simpl; try reflexivity.
  - destruct (String.eqb a "") eqn:E; simpl.
    + rewrite IH. unfold Js.or at 2. simpl. rewrite E. reflexivity.
    + unfold Js.or. simpl. rewrite E. reflexivity.
  - rewrite IH. reflexivity.
Qed.

(** The fallback chain of the handler picks the first non-empty field. *)
Lemma rawUserId_or (req : UploadRequest) (x : Js.value) :
  Js.or (rawUserId req) x = Js.or (Spec.first_nonempty (Spec.identifier_fields req)) x.
Proof.
  rewrite or_first_nonempty. unfold rawUserId. rewrite !or_assoc. reflexivity.
Qed.

Lemma first_nonempty_empty (l : list Js.value) :
  Forall (fun v => v = None \/ v = Some "") l -> Spec.first_nonempty l = None.
Proof.
  induction 1 as [|v l [-> | ->] _ IH]; simpl; auto.
Qed.

Lemma first_nonempty_nonempty (l : list Js.value) (s : string) :
  Spec.first_nonempty l = Some s -> s <> "".
Proof.
  induction l as [|[a|] l IH]; simpl; try discriminate; auto.
  destruct (String.eqb a "") eqn:E; auto.
  intros H; injection H as <-. intros ->. discriminate.
Qed.

Lemma get_lt (i : nat) (u : string) (c : ascii) :
  String.get i u = Some c -> (i < String.length u)%nat.
Proof.
  revert i; induction u as [|a u IH]; intros [|i]; simpl; try discriminate.
  - lia.
  - intros H. specialize (IH i H). lia.
Qed.

Lemma replace_slashes_id (u : string) :
  (forall i c, String.get i u = Some c -> Ascii.eqb c "/"%char = false) ->
  Js.replace_slashes u = u.
Proof.
  induction u as [|a u IH]; intros H; simpl; [reflexivity|].
  rewrite (H 0%nat a eq_refl). rewrite IH; [reflexivity|].
  intros i c Hc. exact (H (S i) c Hc).
Qed.

Lemma uuid_no_slash (u : string) :
  Spec.uuid_format u = true ->
  forall i c, String.get i u = Some c -> Ascii.eqb c "/"%char = false.
Proof.
  unfold Spec.uuid_format. intros H i c Hc.
  apply andb_prop in H as [Hl H]. apply Nat.eqb_eq in Hl.
  rewrite forallb_forall in H.
  assert (Hi : In i (seq 0 36)) by (apply in_seq; pose proof (get_lt i u c Hc); lia).
  specialize (H i Hi). rewrite Hc in H.
  destruct (Ascii.eqb c "/"%char) eqn:E; [|reflexivity].
  apply Ascii.eqb_eq in E. subst c.
  destruct (existsb _ _); discriminate.
Qed.

Lemma uuid_nonempty (u : string) : Spec.uuid_format u = true -> u <> "".
Proof. intros H ->. discriminate. Qed.

(** The content type the handler sends is the spec's resolver applied to
    the file's own extension. *)
Lemma upload_mime_resolve (m name : string) :
  upload_mime m (upload_ext name) = Spec.resolve_mime m (Path.extname name).
Proof.
  unfold upload_mime, upload_ext, Spec.resolve_mime, Js.or, Js.truthy.
  assert (Hm : negb (String.eqb m "") && String.prefix "image/" m = String.prefix "image/" m).
  { destruct (String.eqb m "") eqn:E; [apply String.eqb_eq in E; subst; reflexivity|reflexivity]. }
  rewrite Hm. destruct (String.prefix "image/" m); [reflexivity|].
  destruct (String.eqb (Path.extname name) "") eqn:E; simpl.
  - apply String.eqb_eq in E. rewrite E. reflexivity.
  - reflexivity.
Qed.

Lemma fileFilter_cases (f : File) :
  fileFilter f = None \/ fileFilter f = Some (PlainError ONLY_IMAGES).
Proof.
  unfold fileFilter. destruct (allowedMime_test _); [left; reflexivity|].
  destruct (existsb _ _); [left|right]; reflexivity.
Qed.

(** A 201 answer under a truthy base URL carries the stripped base, '/'
    and the key. *)
Lemma upload_route_base_url env c uuid st req r st' log url key :
  upload_route env c uuid st req = (r, st', log) -> body r = UploadOk url key ->
  Js.truthy (S3_PUBLIC_BASE_URL env) = true ->
  url = Js.strip_trailing_slash (match S3_PUBLIC_BASE_URL env with Some b => b | None => "" end)
          ++ "/" ++ key.
Proof.
  intros H Hb Ht. unfold upload_route in H. destruct (file req) as [f|] eqn:Hf.
  - destruct (multer_check f) as [e|] eqn:Hm.
    + injection H as <- _ _. destruct e as [code msg|msg]; simpl in Hb;
      repeat match type of Hb with context [if ?b then _ else _] => destruct b end;
      discriminate.
    + unfold upload_handler in H. rewrite Hf, Ht in H.
      destruct (put c _ _ _ _); injection H as <- _ _; [discriminate|].
      simpl in Hb. injection Hb as <- <-. reflexivity.
  - unfold upload_handler in H. rewrite Hf in H. injection H as <- _ _. discriminate.
Qed.

Lemma error_middleware_shape (e : MwError) :
  (status (error_middleware e) = 400 \/ status (error_middleware e) = 500) /\
  exists m, body (error_middleware e) = ErrorBody m.
Proof.
  destruct e as [code msg|msg]; simpl;
  repeat match goal with |- context [if ?b then _ else _] => destruct b end;
  simpl; split; eauto.
Qed.

End Facts.

(* ------------------------------------------------------------------ *)
(** * Claims *)

Module Claims.
Import Server.

(** C1: the upload filter accepts a file whose declared content type is,
    ignoring case, one of image/jpeg, image/jpg, image/pjpeg, image/png,
    image/gif or image/webp; otherwise it accepts a file whose lower-cased
    extension is one of .jpg .jpeg .png .gif .webp; otherwise it rejects
    it with the [Only images] error, which the route answers with a 400
    whose message contains 'Only images', without any storage request. *)
Theorem C1_file_filter (env : Env) (c : Client) (uuid : string) (st : Store)
    (req : UploadRequest) (f : File) (Hf : file req = Some f) :
  (In (Js.toLowerCase (mimetype f)) Spec.image_types -> fileFilter f = None) /\
  (In (Js.toLowerCase (Path.extname (originalname f))) Spec.image_exts -> fileFilter f = None) /\
  (~ In (Js.toLowerCase (mimetype f)) Spec.image_types ->
   ~ In (Js.toLowerCase (Path.extname (originalname f))) Spec.image_exts ->
   fileFilter f = Some (PlainError ONLY_IMAGES) /\
   upload_route env c uuid st req = (mkResponse 400 (ErrorBody ONLY_IMAGES), st, []) /\
   Js.includes ONLY_IMAGES "Only images" = true).
Proof.
  assert (Hfil : fileFilter f =
    if existsb (String.eqb (Js.toLowerCase (mimetype f))) Spec.image_types then None
    else if existsb (String.eqb (Js.toLowerCase (Path.extname (originalname f)))) Spec.image_exts
    then None else Some (PlainError ONLY_IMAGES)).
  { unfold fileFilter. rewrite Facts.allowedMime_test_lower. reflexivity. }
  split; [|split].
  - intros H. apply Facts.existsb_eqb_In in H. rewrite Hfil, H. reflexivity.
  - intros H. apply Facts.existsb_eqb_In in H. rewrite Hfil, H.
    destruct (existsb _ Spec.image_types); reflexivity.
  - intros H1 H2.
    assert (E1 : existsb (String.eqb (Js.toLowerCase (mimetype f))) Spec.image_types = false).
    { apply not_true_iff_false. intros E. apply H1, Facts.existsb_eqb_In, E. }
    assert (E2 : existsb (String.eqb (Js.toLowerCase (Path.extname (originalname f))))
                   Spec.image_exts = false).
    { apply not_true_iff_false. intros E. apply H2, Facts.existsb_eqb_In, E. }
    assert (Hr : fileFilter f = Some (PlainError ONLY_IMAGES)) by (rewrite Hfil, E1, E2; reflexivity).
    split; [exact Hr|split; [|reflexivity]].
    rewrite (Facts.upload_route_rejected env c uuid st req f (PlainError ONLY_IMAGES) Hf)
      by (unfold multer_check; rewrite Hr; reflexivity).
    reflexivity.
Qed.


(** C2 (amended): for every non-empty identifier string [s] that the fallback
    chain selects, the key the upload sends to storage is
    PROFILE_PREFIX/ + [s] with every '/' replaced by '-' + the extension;
    the key does not depend on the random UUID, so repeated calls agree.
    When every identifier field is missing or the empty string, the
    identifier is treated as absent: the key is the one of the same request
    without identifier fields, and its identifier segment is the random UUID
    (with '/' replaced, which leaves a [randomUUID()] value unchanged). *)
Theorem C2_identifier_key (env : Env) (c : Client) (st : Store)
    (req : UploadRequest) (f : File) (uuid1 uuid2 : string)
    (Hf : file req = Some f) (Hm : multer_check f = None) :
  (forall s, rawUserId req = Some s -> s <> "" ->
   Spec.put_key (upload_route env c uuid1 st req) =
     Some (PROFILE_PREFIX env ++ "/" ++ Js.replace_slashes s ++ upload_ext (originalname f)) /\
   Spec.put_key (upload_route env c uuid1 st req) = Spec.put_key (upload_route env c uuid2 st req)) /\
  (Forall (fun v => v = None \/ v = Some "") (Spec.identifier_fields req) ->
   Spec.put_key (upload_route env c uuid1 st req) =
     Some (PROFILE_PREFIX env ++ "/" ++ Js.replace_slashes uuid1 ++ upload_ext (originalname f)) /\
   Spec.put_key (upload_route env c uuid1 st req) =
     Spec.put_key (upload_route env c uuid1 st (mkUploadRequest None None None None (file req))) /\
   (Spec.uuid_format uuid1 = true ->
    Spec.put_key (upload_route env c uuid1 st req) =
      Some (PROFILE_PREFIX env ++ "/" ++ uuid1 ++ upload_ext (originalname f)))).
Proof.
  assert (Hk : forall u req', file req' = Some f ->
     Spec.put_key (upload_route env c u st req') =
       Some (upload_key (PROFILE_PREFIX env) (userId (rawUserId req') u) (upload_ext (originalname f)))).
  { intros u req' Hf'. rewrite (Facts.upload_route_accepted env c u st req' f Hf' Hm).
    destruct (Facts.upload_handler_put env c u st req' f Hf') as [rest H].
    unfold Spec.put_key. rewrite H. reflexivity. }
  split.
  - intros s Hraw Hs.
    assert (Hu : forall u, userId (rawUserId req) u = Js.replace_slashes s).
    { intros u. unfold userId. rewrite Hraw. unfold Js.or, Js.truthy.
      apply String.eqb_neq in Hs. rewrite Hs. reflexivity. }
    rewrite !(Hk _ req Hf). unfold upload_key. rewrite !Hu. split; reflexivity.
  - intros Hall.
    assert (Hn : userId (rawUserId req) uuid1 = Js.replace_slashes uuid1).
    { unfold userId. rewrite Facts.rawUserId_or, (Facts.first_nonempty_empty _ Hall).
      reflexivity. }
    rewrite (Hk uuid1 req Hf), (Hk uuid1 (mkUploadRequest None None None None (file req)) Hf).
    unfold upload_key. rewrite Hn. split; [reflexivity|]. split; [reflexivity|].
    intros Hu. rewrite (Facts.replace_slashes_id uuid1 (Facts.uuid_no_slash uuid1 Hu)).
    reflexivity.
Qed.

(** C2 counterexample: an empty-string identifier is not used as the key's
    identifier segment; two runs with different random UUIDs give
    different keys. *)
Lemma C2_empty_identifier_counterexample :
  Spec.put_key (upload_route Sample.env_signed Sample.client_ok Sample.uuid1 ∅
                  (Sample.req_with (Some "") Sample.png_file)) <>
  Some ("profile-pics/" ++ Js.replace_slashes "" ++ ".png") /\
  Spec.put_key (upload_route Sample.env_signed Sample.client_ok Sample.uuid1 ∅
                  (Sample.req_with (Some "") Sample.png_file)) <>
  Spec.put_key (upload_route Sample.env_signed Sample.client_ok Sample.uuid2 ∅
                  (Sample.req_with (Some "") Sample.png_file)).
Proof. split; vm_compute; congruence. Qed.

(** C3: the code keeps the extension's case: for "photo.PNG" the key is
    "profile-pics/u1.PNG", not the lower-cased "profile-pics/u1.png", and
    with a generic declared type the content type falls back to image/jpeg
    although the filter accepted the file by its lower-cased extension. *)
Theorem C3_uppercase_extension_kept :
  let f := mkFile "photo.PNG" "application/octet-stream" [Byte.x89; Byte.x50] in
  let run := upload_route Sample.env_signed Sample.client_ok Sample.uuid1 ∅
               (Sample.req_with (Some "u1") f) in
  fileFilter f = None /\
  Spec.put_key run = Some "profile-pics/u1.PNG" /\
  Spec.put_key run <> Some ("profile-pics/u1" ++ Js.toLowerCase (Path.extname "photo.PNG")) /\
  Spec.put_content_type run = Some "image/jpeg".
Proof. vm_compute. repeat split; congruence. Qed.

(** C7: the stored content type is the declared type when it starts with
    image/, and otherwise .png -> image/png, .gif -> image/gif,
    .webp -> image/webp and image/jpeg for any other extension or none. *)
Theorem C7_content_type (env : Env) (c : Client) (uuid : string) (st : Store)
    (req : UploadRequest) (f : File)
    (Hf : file req = Some f) (Hm : multer_check f = None) :
  Spec.put_content_type (upload_route env c uuid st req) =
    Some (Spec.resolve_mime (mimetype f) (Path.extname (originalname f))).
Proof.
  rewrite (Facts.upload_route_accepted env c uuid st req f Hf Hm).
  destruct (Facts.upload_handler_put env c uuid st req f Hf) as [rest H].
  unfold Spec.put_content_type. rewrite H, Facts.upload_mime_resolve. reflexivity.
Qed.

(** C10: when every identifier field (query userId, query user_id, body
    userId, body user_id) is missing or empty, the key's identifier segment
    is the fresh UUID, which is never empty; otherwise the first non-empty
    field in that order gives the segment. *)
Theorem C10_empty_identifier_is_absent (env : Env) (c : Client) (st : Store)
    (req : UploadRequest) (f : File) (uuid : string)
    (Hf : file req = Some f) (Hm : multer_check f = None)
    (Hu : Spec.uuid_format uuid = true) :
  (Forall (fun v => v = None \/ v = Some "") (Spec.identifier_fields req) ->
   Spec.put_key (upload_route env c uuid st req) =
     Some (PROFILE_PREFIX env ++ "/" ++ uuid ++ upload_ext (originalname f)) /\
   uuid <> "") /\
  (forall s, Spec.first_nonempty (Spec.identifier_fields req) = Some s ->
   Spec.put_key (upload_route env c uuid st req) =
     Some (PROFILE_PREFIX env ++ "/" ++ Js.replace_slashes s ++ upload_ext (originalname f))).
Proof.
  rewrite (Facts.upload_route_accepted env c uuid st req f Hf Hm).
  destruct (Facts.upload_handler_put env c uuid st req f Hf) as [rest H].
  unfold Spec.put_key. rewrite H. unfold upload_key, userId.
  rewrite Facts.rawUserId_or. split.
  - intros Hall. rewrite (Facts.first_nonempty_empty _ Hall). simpl.
    rewrite (Facts.replace_slashes_id uuid (Facts.uuid_no_slash uuid Hu)).
    split; [reflexivity | exact (Facts.uuid_nonempty uuid Hu)].
  - intros s Hs. rewrite Hs. pose proof (Facts.first_nonempty_nonempty _ _ Hs) as Hne.
    unfold Js.or, Js.truthy. apply String.eqb_neq in Hne. rewrite Hne. reflexivity.
Qed.

(** C4 (amended): for a file that passes the content-type filter, one of
    exactly 5 MiB is accepted and one of 5 MiB + 1 bytes is rejected as too
    large with a 400 'File too large. Max 5 MB.'; a file that fails the
    filter is rejected with the 'Only images' 400 whatever its size, since
    the filter runs before the size is known. *)
Theorem C4_size_gate_after_filter (env : Env) (c : Client) (uuid : string) (st : Store)
    (req : UploadRequest) (f : File) (Hf : file req = Some f) :
  (fileFilter f = None -> Z.of_nat (length (buffer f)) = 5 * 1024 * 1024 ->
   multer_check f = None /\ upload_route env c uuid st req = upload_handler env c uuid st req) /\
  (fileFilter f = None -> Z.of_nat (length (buffer f)) = 5 * 1024 * 1024 + 1 ->
   multer_check f = Some (MulterError "LIMIT_FILE_SIZE" "File too large") /\
   upload_route env c uuid st req =
     (mkResponse 400 (ErrorBody "File too large. Max 5 MB."), st, [])) /\
  (fileFilter f <> None ->
   upload_route env c uuid st req = (mkResponse 400 (ErrorBody ONLY_IMAGES), st, [])).
Proof.
  split; [|split].
  - intros Hok Hlen.
    assert (Hm : multer_check f = None)
      by (unfold multer_check; rewrite Hok, Hlen; reflexivity).
    split; [exact Hm | exact (Facts.upload_route_accepted env c uuid st req f Hf Hm)].
  - intros Hok Hlen.
    assert (Hm : multer_check f = Some (MulterError "LIMIT_FILE_SIZE" "File too large"))
      by (unfold multer_check; rewrite Hok, Hlen; reflexivity).
    split; [exact Hm|]. rewrite (Facts.upload_route_rejected env c uuid st req f _ Hf Hm).
    reflexivity.
  - intros Hbad. destruct (Facts.fileFilter_cases f) as [E|E]; [contradiction|].
    rewrite (Facts.upload_route_rejected env c uuid st req f (PlainError ONLY_IMAGES) Hf)
      by (unfold multer_check; rewrite E; reflexivity).
    reflexivity.
Qed.

(** C4 counterexample: a text/plain payload of 5 MiB + 1 bytes is rejected
    as an unsupported type, not as too large: the size gate does not act
    independently of the content-type check. *)
Lemma C4_oversize_text_counterexample :
  Z.of_nat (length (buffer Sample.big_text_file)) = 5 * 1024 * 1024 + 1 /\
  multer_check Sample.big_text_file = Some (PlainError ONLY_IMAGES) /\
  upload_route Sample.env_signed Sample.client_ok Sample.uuid1 ∅
    (Sample.req_with None Sample.big_text_file) <>
  (mkResponse 400 (ErrorBody "File too large. Max 5 MB."), ∅, []).
Proof.
  assert (Hm : multer_check Sample.big_text_file = Some (PlainError ONLY_IMAGES)) by reflexivity.
  split; [|split; [exact Hm|]].
  - cbn [buffer Sample.big_text_file]. rewrite repeat_length. rewrite Z2Nat.id; lia.
  - rewrite (Facts.upload_route_rejected Sample.env_signed Sample.client_ok Sample.uuid1 ∅
              (Sample.req_with None Sample.big_text_file) Sample.big_text_file _ eq_refl Hm).
    vm_compute. congruence.
Qed.

(** C5 (amended): a request without a file, or one that multer rejects,
    makes no storage request and leaves the store unchanged; every 201
    response has stored the bytes under its key and resolved its URL; a
    failed request leaves the store unchanged except when the put
    succeeded and the later URL signing failed, in which case the request
    answers 500 with the object already stored. *)
Theorem C5_upload_store_effects (env : Env) (c : Client) (uuid : string) (st : Store)
    (req : UploadRequest) (r : Response) (st' : Store) (log : list Call)
    (H : upload_route env c uuid st req = (r, st', log)) :
  ((file req = None \/ exists f, file req = Some f /\ multer_check f <> None) ->
   st' = st /\ log = []) /\
  (status r = 201 ->
   exists f key url, file req = Some f /\ body r = UploadOk url key /\
     st' = <[key := mkObj (buffer f) (upload_mime (mimetype f) (upload_ext (originalname f)))
                         UPLOAD_CACHE_CONTROL]> st /\
     (url = Js.strip_trailing_slash (match S3_PUBLIC_BASE_URL env with Some b => b | None => "" end)
            ++ "/" ++ key
      \/ signedUrl c (Uri.units key) UPLOAD_EXPIRES_IN = inr url)) /\
  (status r <> 201 ->
   st' = st \/
   exists f key msg, file req = Some f /\ Js.truthy (S3_PUBLIC_BASE_URL env) = false /\
     signedUrl c (Uri.units key) UPLOAD_EXPIRES_IN = inl msg /\
     status r = 500 /\ body r = ErrorBody (message_or msg "Upload failed") /\
     st' = <[key := mkObj (buffer f) (upload_mime (mimetype f) (upload_ext (originalname f)))
                         UPLOAD_CACHE_CONTROL]> st /\
     log = [PutObject key (upload_mime (mimetype f) (upload_ext (originalname f)))
              UPLOAD_CACHE_CONTROL; SignGetObject (Uri.units key) UPLOAD_EXPIRES_IN]).
Proof.
  unfold upload_route in H. destruct (file req) as [f|] eqn:Hf.
  - destruct (multer_check f) as [e|] eqn:Hm.
    + injection H as <- <- <-.
      destruct (Facts.error_middleware_shape e) as [Hs _].
      split; [|split].
      * auto.
      * intros E. destruct Hs as [Hs|Hs]; rewrite Hs in E; discriminate.
      * intros _. left. reflexivity.
    + assert (Hnot : ~ (Some f = None \/ exists f', Some f = Some f' /\ multer_check f' <> None)).
      { intros [E|[f' [E1 E2]]]; [discriminate|].
        injection E1 as <-. contradiction. }
      unfold upload_handler in H. rewrite Hf in H.
      destruct (put c _ _ _ _) as [msg|] eqn:Hp.
      * injection H as <- <- <-. split; [|split].
        -- intros X; contradiction.
        -- intros E; discriminate.
        -- intros _; left; reflexivity.
      * destruct (Js.truthy (S3_PUBLIC_BASE_URL env)) eqn:Hb.
        -- injection H as <- <- <-. split; [|split].
           ++ intros X; contradiction.
           ++ intros _. do 3 eexists. split; [reflexivity|]. split; [reflexivity|].
              split; [reflexivity|]. left; reflexivity.
           ++ intros E; exfalso; apply E; reflexivity.
        -- destruct (signedUrl c _ _) as [msg|url] eqn:Hs.
           ++ injection H as <- <- <-. split; [|split].
              ** intros X; contradiction.
              ** intros E; discriminate.
              ** intros _. right. do 3 eexists. split; [reflexivity|].
                 split; [reflexivity|]. split; [exact Hs|]. repeat split; reflexivity.
           ++ injection H as <- <- <-. split; [|split].
              ** intros X; contradiction.
              ** intros _. do 3 eexists. split; [reflexivity|]. split; [reflexivity|].
                 split; [reflexivity|]. right; exact Hs.
              ** intros E; exfalso; apply E; reflexivity.
  - unfold upload_handler in H. rewrite Hf in H. injection H as <- <- <-.
    split; [|split].
    + auto.
    + intros E; discriminate.
    + intros _; left; reflexivity.
Qed.

(** C5 counterexample: the put succeeds, signing then fails; the request
    answers 500 while the object stays in the store. *)
Lemma C5_sign_failure_counterexample :
  status (fst (fst Sample.run_sign_fails)) = 500 /\
  snd (fst Sample.run_sign_fails) !! "profile-pics/u1.png" =
    Some (mkObj [Byte.x89; Byte.x50] "image/png" UPLOAD_CACHE_CONTROL) /\
  (∅ : Store) !! "profile-pics/u1.png" = None.
Proof. vm_compute. repeat split. Qed.

(** C6: a 201 upload answer carries, when a non-empty
    S3_PUBLIC_BASE_URL is configured, the base URL with one trailing '/'
    removed, then '/', then the key, with no signing request; otherwise the
    URL the client signed for the key with expiresIn 518400 seconds, that is
    exactly 6 days. *)
Theorem C6_upload_url (env : Env) (c : Client) (uuid : string) (st : Store)
    (req : UploadRequest) (r : Response) (st' : Store) (log : list Call) (url key : string)
    (H : upload_route env c uuid st req = (r, st', log)) (Hb : body r = UploadOk url key) :
  status r = 201 /\
  (forall b, S3_PUBLIC_BASE_URL env = Some b -> b <> "" ->
   url = Js.strip_trailing_slash b ++ "/" ++ key /\ forallb (fun cl => negb (Spec.is_sign cl)) log = true) /\
  (Js.truthy (S3_PUBLIC_BASE_URL env) = false ->
   signedUrl c (Uri.units key) UPLOAD_EXPIRES_IN = inr url /\
   In (SignGetObject (Uri.units key) UPLOAD_EXPIRES_IN) log /\
   UPLOAD_EXPIRES_IN = 6 * 24 * 60 * 60).
Proof.
  unfold upload_route in H. destruct (file req) as [f|] eqn:Hf.
  - destruct (multer_check f) as [e|] eqn:Hm.
    + injection H as <- <- <-. destruct (Facts.error_middleware_shape e) as [_ [m Hm']].
      rewrite Hm' in Hb. discriminate.
    + unfold upload_handler in H. rewrite Hf in H.
      destruct (put c _ _ _ _) as [msg|] eqn:Hp.
      * injection H as <- <- <-. discriminate.
      * destruct (Js.truthy (S3_PUBLIC_BASE_URL env)) eqn:Ht.
        -- injection H as <- <- <-. simpl in Hb. injection Hb as <- <-.
           split; [reflexivity|]. split.
           ++ intros b Eb _. rewrite Eb. split; reflexivity.
           ++ intros E; discriminate.
        -- destruct (signedUrl c _ _) as [msg|u] eqn:Hs.
           ++ injection H as <- <- <-. discriminate.
           ++ injection H as <- <- <-. simpl in Hb. injection Hb as <- <-.
              split; [reflexivity|]. split.
              ** intros b Eb Hne. rewrite Eb in Ht. unfold Js.truthy in Ht.
                 apply String.eqb_neq in Hne. rewrite Hne in Ht. discriminate.
              ** intros _. split; [exact Hs|]. split; [right; left; reflexivity|reflexivity].
  - unfold upload_handler in H. rewrite Hf in H. injection H as <- <- <-. discriminate.
Qed.

(** C8 (code bug): the handler decodes the route parameter a second time,
    after the router has already decoded it, so it does not sign the given
    key. The upload route stores "profile-pics/a%41.png" for the identifier
    "a%41"; the request path segment "profile-pics%2Fa%2541.png" reaches the
    handler as that key, yet the handler signs "profile-pics/aA.png". For
    the stored key "profile-pics/100%.png" the second decoding throws and
    the answer is a 500 with nothing signed. *)
Theorem C8_double_decode (c : Client) (uuid : string) (st : Store) :
  Spec.put_key (upload_route Sample.env_signed c uuid st (Sample.req_with (Some "a%41") Sample.png_file)) =
    Some "profile-pics/a%41.png" /\
  Uri.decodeURIComponent "profile-pics%2Fa%2541.png" = Some (Uri.units "profile-pics/a%41.png") /\
  snd (profile_pic_route c st "profile-pics/a%41.png") =
    [SignGetObject (Uri.units "profile-pics/aA.png") GET_URL_EXPIRES_IN] /\
  Uri.units "profile-pics/aA.png" <> Uri.units "profile-pics/a%41.png" /\
  Spec.put_key (upload_route Sample.env_signed c uuid st (Sample.req_with (Some "100%") Sample.png_file)) =
    Some "profile-pics/100%.png" /\
  Uri.decodeURIComponent "profile-pics%2F100%25.png" = Some (Uri.units "profile-pics/100%.png") /\
  profile_pic_route c st "profile-pics/100%.png" = (mkResponse 500 (ErrorBody "URI malformed"), st, []).
Proof.
  assert (Hk : forall s, Spec.put_key (upload_route Sample.env_signed c uuid st
                                          (Sample.req_with (Some s) Sample.png_file)) =
                 Some (upload_key (PROFILE_PREFIX Sample.env_signed)
                         (userId (rawUserId (Sample.req_with (Some s) Sample.png_file)) uuid)
                         (upload_ext (originalname Sample.png_file)))).
  { intros s. rewrite (Facts.upload_route_accepted Sample.env_signed c uuid st
              (Sample.req_with (Some s) Sample.png_file) Sample.png_file eq_refl eq_refl).
    destruct (Facts.upload_handler_put Sample.env_signed c uuid st
                (Sample.req_with (Some s) Sample.png_file) Sample.png_file eq_refl) as [rest H].
    unfold Spec.put_key. rewrite H. reflexivity. }
  rewrite !Hk.
  assert (Da : Uri.decodeURIComponent "profile-pics/a%41.png" = Some (Uri.units "profile-pics/aA.png"))
    by (vm_compute; reflexivity).
  assert (Db : Uri.decodeURIComponent "profile-pics/100%.png" = None) by (vm_compute; reflexivity).
  split; [reflexivity|]. split; [vm_compute; reflexivity|].
  split; [unfold profile_pic_route; rewrite Da; destruct (signedUrl c _ _); reflexivity|].
  split; [vm_compute; congruence|].
  split; [reflexivity|]. split; [vm_compute; reflexivity|].
  unfold profile_pic_route. rewrite Db. reflexivity.
Qed.

(** C9 (code bug): with S3_PUBLIC_BASE_URL set to "/", the upload answers
    the url "/" + key, while the listing, which strips the trailing '/'
    before testing the base, gives every item, that key included, the url
    null. *)
Theorem C9_slash_base_divergence (env : Env) (c : Client) (uuid : string) (st : Store)
    (req : UploadRequest) (r : Response) (st' : Store) (log : list Call) (url key : string)
    (contents : option (list S3Object))
    (Hb : S3_PUBLIC_BASE_URL env = Some "/")
    (H : upload_route env c uuid st req = (r, st', log)) (Hok : body r = UploadOk url key)
    (Hl : listObjects c (PROFILE_PREFIX env ++ "/") LIST_MAX_KEYS = inr contents) :
  url = "/" ++ key /\
  exists items,
    body (fst (fst (profile_pics_route env c st'))) =
      ListBody (PROFILE_PREFIX env) (Z.of_nat (length items)) items /\
    map item_key items = map Key (match contents with Some l => l | None => [] end) /\
    Forall (fun it => item_url it = None) items.
Proof.
  split.
  - rewrite (Facts.upload_route_base_url env c uuid st req r st' log url key H Hok)
      by (rewrite Hb; reflexivity).
    rewrite Hb. reflexivity.
  - unfold profile_pics_route. rewrite Hl, Hb. eexists. split; [reflexivity|]. split.
    + rewrite map_map. reflexivity.
    + apply List.Forall_forall. intros it Hin. apply in_map_iff in Hin as [o [<- _]]. reflexivity.
Qed.

End Claims.

(* ------------------------------------------------------------------ *)
(** * The claims at concrete inputs *)

Module Witnesses.
Import Server.

Lemma C1_file_filter_witness :
  file (Sample.req_with None Sample.png_file) = Some Sample.png_file /\
  (In (Js.toLowerCase (mimetype Sample.png_file)) Spec.image_types ->
   fileFilter Sample.png_file = None) /\
  (In (Js.toLowerCase (Path.extname (originalname Sample.png_file))) Spec.image_exts ->
   fileFilter Sample.png_file = None) /\
  (~ In (Js.toLowerCase (mimetype Sample.png_file)) Spec.image_types ->
   ~ In (Js.toLowerCase (Path.extname (originalname Sample.png_file))) Spec.image_exts ->
   fileFilter Sample.png_file = Some (PlainError ONLY_IMAGES) /\
   upload_route Sample.env_signed Sample.client_ok Sample.uuid1 ∅
     (Sample.req_with None Sample.png_file) =
     (mkResponse 400 (ErrorBody ONLY_IMAGES), ∅, []) /\
   Js.includes ONLY_IMAGES "Only images" = true).
Proof.
  split; [reflexivity|].
  exact (Claims.C1_file_filter Sample.env_signed Sample.client_ok Sample.uuid1 ∅
           (Sample.req_with None Sample.png_file) Sample.png_file eq_refl).
Defined.

Lemma C2_identifier_key_witness :
  rawUserId Sample.gid_req = Some "gid://shopify/Customer/123" /\
  Spec.put_key (upload_route Sample.env_signed Sample.client_ok Sample.uuid1 ∅ Sample.gid_req) =
    Some ("profile-pics" ++ "/" ++ Js.replace_slashes "gid://shopify/Customer/123" ++ ".png") /\
  Spec.put_key (upload_route Sample.env_signed Sample.client_ok Sample.uuid1 ∅ Sample.gid_req) =
    Spec.put_key (upload_route Sample.env_signed Sample.client_ok Sample.uuid2 ∅ Sample.gid_req) /\
  Spec.uuid_format Sample.uuid1 = true /\
  Spec.put_key (upload_route Sample.env_signed Sample.client_ok Sample.uuid1 ∅
                  (Sample.req_with (Some "") Sample.png_file)) =
    Some ("profile-pics" ++ "/" ++ Sample.uuid1 ++ ".png").
Proof.
  assert (H1 := Claims.C2_identifier_key Sample.env_signed Sample.client_ok ∅ Sample.gid_req
                  Sample.png_file Sample.uuid1 Sample.uuid2 eq_refl eq_refl).
  assert (H2 := Claims.C2_identifier_key Sample.env_signed Sample.client_ok ∅
                  (Sample.req_with (Some "") Sample.png_file)
                  Sample.png_file Sample.uuid1 Sample.uuid2 eq_refl eq_refl).
  split; [reflexivity|].
  split; [exact (proj1 (proj1 H1 "gid://shopify/Customer/123" eq_refl ltac:(discriminate)))|].
  split; [exact (proj2 (proj1 H1 "gid://shopify/Customer/123" eq_refl ltac:(discriminate)))|].
  split; [reflexivity|].
  apply (proj2 (proj2 (proj2 H2 ltac:(unfold Spec.identifier_fields; repeat (apply List.Forall_cons; [auto|]); apply List.Forall_nil)))).
  reflexivity.
Defined.

Lemma C4_size_gate_after_filter_witness :
  (multer_check Sample2.png_5mib = None /\
   upload_route Sample.env_signed Sample.client_ok Sample.uuid1 ∅ (Sample.req_with None Sample2.png_5mib) =
   upload_handler Sample.env_signed Sample.client_ok Sample.uuid1 ∅ (Sample.req_with None Sample2.png_5mib)) /\
  (multer_check Sample2.png_5mib_1 = Some (MulterError "LIMIT_FILE_SIZE" "File too large") /\
   upload_route Sample.env_signed Sample.client_ok Sample.uuid1 ∅ (Sample.req_with None Sample2.png_5mib_1) =
     (mkResponse 400 (ErrorBody "File too large. Max 5 MB."), ∅, [])) /\
  upload_route Sample.env_signed Sample.client_ok Sample.uuid1 ∅ (Sample.req_with None Sample.big_text_file) =
    (mkResponse 400 (ErrorBody ONLY_IMAGES), ∅, []).
Proof.
  assert (L : forall n, Z.of_nat (length (repeat Byte.x00 (Z.to_nat n))) = n \/ n < 0).
  { intros n. rewrite repeat_length. destruct (Z_lt_le_dec n 0) as [Hn|Hn]; [right; exact Hn|].
    left. apply Z2Nat.id, Hn. }
  split; [|split].
  - apply (proj1 (Claims.C4_size_gate_after_filter Sample.env_signed Sample.client_ok Sample.uuid1 ∅
             (Sample.req_with None Sample2.png_5mib) Sample2.png_5mib eq_refl)); [reflexivity|].
    cbn [buffer Sample2.png_5mib]. destruct (L (5 * 1024 * 1024)) as [E|E]; [exact E|lia].
  - apply (proj1 (proj2 (Claims.C4_size_gate_after_filter Sample.env_signed Sample.client_ok
             Sample.uuid1 ∅ (Sample.req_with None Sample2.png_5mib_1) Sample2.png_5mib_1 eq_refl)));
      [reflexivity|].
    cbn [buffer Sample2.png_5mib_1]. destruct (L (5 * 1024 * 1024 + 1)) as [E|E]; [exact E|lia].
  - apply (proj2 (proj2 (Claims.C4_size_gate_after_filter Sample.env_signed Sample.client_ok
             Sample.uuid1 ∅ (Sample.req_with None Sample.big_text_file) Sample.big_text_file eq_refl))).
    change (fileFilter Sample.big_text_file) with (Some (PlainError ONLY_IMAGES)). discriminate.
Defined.

Lemma C5_upload_store_effects_witness :
  upload_route Sample.env_signed Sample.client_sign_fails Sample.uuid1 ∅
    (Sample.req_with (Some "u1") Sample.png_file) =
    (fst (fst Sample.run_sign_fails), snd (fst Sample.run_sign_fails), snd Sample.run_sign_fails) /\
  (status (fst (fst Sample.run_sign_fails)) <> 201 ->
   snd (fst Sample.run_sign_fails) = ∅ \/
   exists f key msg, file (Sample.req_with (Some "u1") Sample.png_file) = Some f /\
     Js.truthy (S3_PUBLIC_BASE_URL Sample.env_signed) = false /\
     signedUrl Sample.client_sign_fails (Uri.units key) UPLOAD_EXPIRES_IN = inl msg /\
     status (fst (fst Sample.run_sign_fails)) = 500 /\
     body (fst (fst Sample.run_sign_fails)) = ErrorBody (message_or msg "Upload failed") /\
     snd (fst Sample.run_sign_fails) =
       <[key := mkObj (buffer f) (upload_mime (mimetype f) (upload_ext (originalname f)))
                      UPLOAD_CACHE_CONTROL]> ∅ /\
     snd Sample.run_sign_fails =
       [PutObject key (upload_mime (mimetype f) (upload_ext (originalname f))) UPLOAD_CACHE_CONTROL;
        SignGetObject (Uri.units key) UPLOAD_EXPIRES_IN]).
Proof.
  split; [reflexivity|].
  exact (proj2 (proj2 (Claims.C5_upload_store_effects Sample.env_signed Sample.client_sign_fails
           Sample.uuid1 ∅ (Sample.req_with (Some "u1") Sample.png_file)
           (fst (fst Sample.run_sign_fails)) (snd (fst Sample.run_sign_fails))
           (snd Sample.run_sign_fails) eq_refl))).
Defined.

Lemma C6_upload_url_witness :
  body (fst (fst Sample.run_public)) =
    UploadOk "https://cdn.example.com/profile-pics/gid:--shopify-Customer-123.png"
             "profile-pics/gid:--shopify-Customer-123.png" /\
  status (fst (fst Sample.run_public)) = 201 /\
  (forall b, S3_PUBLIC_BASE_URL Sample.env_public = Some b -> b <> "" ->
   "https://cdn.example.com/profile-pics/gid:--shopify-Customer-123.png" =
     Js.strip_trailing_slash b ++ "/" ++ "profile-pics/gid:--shopify-Customer-123.png" /\
   forallb (fun cl => negb (Spec.is_sign cl)) (snd Sample.run_public) = true) /\
  (Js.truthy (S3_PUBLIC_BASE_URL Sample.env_public) = false ->
   signedUrl Sample.client_ok (Uri.units "profile-pics/gid:--shopify-Customer-123.png")
     UPLOAD_EXPIRES_IN = inr "https://cdn.example.com/profile-pics/gid:--shopify-Customer-123.png" /\
   In (SignGetObject (Uri.units "profile-pics/gid:--shopify-Customer-123.png") UPLOAD_EXPIRES_IN)
      (snd Sample.run_public) /\
   UPLOAD_EXPIRES_IN = 6 * 24 * 60 * 60).
Proof.
  split; [reflexivity|].
  exact (Claims.C6_upload_url Sample.env_public Sample.client_ok Sample.uuid1 ∅ Sample.gid_req
           (fst (fst Sample.run_public)) (snd (fst Sample.run_public)) (snd Sample.run_public)
           "https://cdn.example.com/profile-pics/gid:--shopify-Customer-123.png"
           "profile-pics/gid:--shopify-Customer-123.png" eq_refl eq_refl).
Defined.

Lemma C7_content_type_witness :
  multer_check (Server.mkFile "a.webp" "application/octet-stream" []) = None /\
  Spec.put_content_type (upload_route Sample.env_signed Sample.client_ok Sample.uuid1 ∅
    (Sample.req_with None (Server.mkFile "a.webp" "application/octet-stream" []))) =
    Some (Spec.resolve_mime "application/octet-stream" (Path.extname "a.webp")).
Proof.
  split; [reflexivity|].
  exact (Claims.C7_content_type Sample.env_signed Sample.client_ok Sample.uuid1 ∅
           (Sample.req_with None (Server.mkFile "a.webp" "application/octet-stream" []))
           (Server.mkFile "a.webp" "application/octet-stream" []) eq_refl eq_refl).
Defined.

Lemma C10_empty_identifier_is_absent_witness :
  Spec.uuid_format Sample.uuid1 = true /\
  (Forall (fun v => v = None \/ v = Some "")
     (Spec.identifier_fields (Sample.req_with (Some "") Sample.png_file)) ->
   Spec.put_key (upload_route Sample.env_signed Sample.client_ok Sample.uuid1 ∅
                   (Sample.req_with (Some "") Sample.png_file)) =
     Some ("profile-pics" ++ "/" ++ Sample.uuid1 ++ ".png") /\
   Sample.uuid1 <> "") /\
  (forall s, Spec.first_nonempty (Spec.identifier_fields (Sample.req_with (Some "") Sample.png_file)) = Some s ->
   Spec.put_key (upload_route Sample.env_signed Sample.client_ok Sample.uuid1 ∅
                   (Sample.req_with (Some "") Sample.png_file)) =
     Some ("profile-pics" ++ "/" ++ Js.replace_slashes s ++ ".png")).
Proof.
  split; [reflexivity|].
  exact (Claims.C10_empty_identifier_is_absent Sample.env_signed Sample.client_ok ∅
           (Sample.req_with (Some "") Sample.png_file) Sample.png_file Sample.uuid1
           eq_refl eq_refl eq_refl).
Defined.

Lemma C9_slash_base_divergence_witness :
  upload_route Sample.env_slash Sample2.client_list_u1 Sample.uuid1 ∅
    (Sample.req_with (Some "u1") Sample.png_file) =
    (mkResponse 201 (UploadOk "/profile-pics/u1.png" "profile-pics/u1.png"),
     <["profile-pics/u1.png" := mkObj [Byte.x89; Byte.x50] "image/png" UPLOAD_CACHE_CONTROL]> ∅,
     [PutObject "profile-pics/u1.png" "image/png" UPLOAD_CACHE_CONTROL]) /\
  body (fst (fst (profile_pics_route Sample.env_slash Sample2.client_list_u1
     (<["profile-pics/u1.png" := mkObj [Byte.x89; Byte.x50] "image/png" UPLOAD_CACHE_CONTROL]> ∅)))) =
    ListBody "profile-pics" 1 [mkItem "profile-pics/u1.png" 2 "2026-01-01" None] /\
  ("/profile-pics/u1.png" = "/" ++ "profile-pics/u1.png" /\
   exists items,
    body (fst (fst (profile_pics_route Sample.env_slash Sample2.client_list_u1
      (<["profile-pics/u1.png" := mkObj [Byte.x89; Byte.x50] "image/png" UPLOAD_CACHE_CONTROL]> ∅)))) =
      ListBody (PROFILE_PREFIX Sample.env_slash) (Z.of_nat (length items)) items /\
    map item_key items = [ "profile-pics/u1.png" ] /\
    Forall (fun it => item_url it = None) items).
Proof.
  split; [vm_compute; reflexivity|]. split; [vm_compute; reflexivity|].
  exact (Claims.C9_slash_base_divergence Sample.env_slash Sample2.client_list_u1 Sample.uuid1 ∅
           (Sample.req_with (Some "u1") Sample.png_file)
           (mkResponse 201 (UploadOk "/profile-pics/u1.png" "profile-pics/u1.png"))
           (<["profile-pics/u1.png" := mkObj [Byte.x89; Byte.x50] "image/png" UPLOAD_CACHE_CONTROL]> ∅)
           [PutObject "profile-pics/u1.png" "image/png" UPLOAD_CACHE_CONTROL]
           "/profile-pics/u1.png" "profile-pics/u1.png"
           (Some [mkS3Object "profile-pics/u1.png" 2 "2026-01-01"])
           eq_refl eq_refl eq_refl eq_refl).
Defined.

End Witnesses.

(* ------------------------------------------------------------------ *)
(** * Lemmas for the further properties *)

Module MoreFacts.
Import Server ExtInv.

Lemma list_ascii_app (s t : string) :
  list_ascii_of_string (s ++ t) = (list_ascii_of_string s ++ list_ascii_of_string t)%list.
Proof. induction s as [|a s IH]; simpl; [reflexivity | rewrite IH; reflexivity]. Qed.

Lemma list_ascii_length (s : string) : length (list_ascii_of_string s) = String.length s.
Proof. induction s as [|a s IH]; simpl; [reflexivity | rewrite IH; reflexivity]. Qed.

Lemma get_nth (s : string) (n : nat) : String.get n s = nth_error (list_ascii_of_string s) n.
Proof. revert n; induction s as [|a s IH]; intros [|n]; simpl; auto. Qed.

Lemma loop_ok (l : list ascii) :
  forall (pre suf : list ascii) st, l = (pre ++ suf)%list ->
  loop_inv l (Z.of_nat (length pre) - 1) st ->
  loop_out l (Path.loop (rev pre) (Z.of_nat (length pre) - 1) st).
Proof.
  induction pre as [|c pre IH] using rev_ind; intros suf st Hl Hinv.
  - simpl in *. destruct Hinv as [He Hs]. intros Hd.
    destruct (Hs Hd) as (He1 & Hlt & Hdot). destruct (He He1) as (_ & Hle & Hns).
    split; [lia|]. split; [lia|]. split; [exact Hdot|].
    intros k Hk. apply Hns. lia.
  - rewrite rev_app_distr. simpl (rev [c] ++ rev pre)%list.
    rewrite length_app in *. simpl length in *.
    replace (Z.of_nat (length pre + 1) - 1) with (Z.of_nat (length pre)) in * by lia.
    set (i := Z.of_nat (length pre)) in *.
    assert (Hc : nth_error l (Z.to_nat i) = Some c).
    { subst i. rewrite Hl, <- app_assoc, Nat2Z.id, nth_error_app2 by lia.
      rewrite Nat.sub_diag. reflexivity. }
    assert (Hlen : i + 1 <= Z.of_nat (length l)).
    { subst i. rewrite Hl, !length_app. simpl. lia. }
    assert (Hl' : l = (pre ++ c :: suf)%list) by (rewrite Hl, <- app_assoc; reflexivity).
    destruct Hinv as [He Hs].
    cbn [Path.loop].
    destruct (Ascii.eqb c "/"%char) eqn:Eslash.
    + destruct (Path.matchedSlash st) eqn:Em; simpl.
      * apply (IH (c :: suf) st Hl'). split.
        -- intros E. destruct (He E) as [Hm _]. congruence.
        -- intros E. destruct (Hs E) as [E' _]. destruct (He E') as [Hm _]. congruence.
      * intros Hd; simpl in Hd |- *.
        destruct (Hs Hd) as (He1 & Hlt & Hdot). destruct (He He1) as (_ & Hle & Hns).
        split; [lia|]. split; [lia|]. split; [exact Hdot|].
        intros k Hk. apply Hns. lia.
    + assert (Hnc : Some c <> Some "/"%char).
      { intros E. injection E as ->. discriminate. }
      remember (if Path.end_ st =? -1
                then Path.mkScan (Path.startDot st) (Path.startPart st) (i + 1) false
                       (Path.preDotState st)
                else st) as st1 eqn:Hst1.
      assert (A : Path.end_ st1 <> -1 /\ Path.matchedSlash st1 = false /\
                  i < Path.end_ st1 <= Z.of_nat (length l) /\
                  no_slash_between l i (Path.end_ st1) /\ Path.startDot st1 = Path.startDot st).
      { rewrite Hst1. destruct (Path.end_ st =? -1) eqn:E; simpl.
        - split; [lia|]. split; [reflexivity|]. split; [lia|]. split; [|reflexivity].
          intros k Hk. replace k with i by lia. rewrite Hc. exact Hnc.
        - apply Z.eqb_neq in E. destruct (He E) as (Hm & Hlt & Hns).
          split; [exact E|]. split; [exact Hm|]. split; [lia|]. split; [|reflexivity].
          intros k Hk. destruct (Z.eq_dec k i) as [->|Hki].
          + rewrite Hc. exact Hnc.
          + apply Hns. lia. }
      assert (B : Path.startDot st1 <> -1 ->
                  i < Path.startDot st1 < Path.end_ st1 /\
                  nth_error l (Z.to_nat (Path.startDot st1)) = Some "."%char).
      { destruct A as (_ & _ & _ & _ & Ed). rewrite Ed. intros Hd.
        destruct (Hs Hd) as (He' & Hlt & Hdot). rewrite Hst1.
        destruct (Path.end_ st =? -1) eqn:E; simpl.
        - apply Z.eqb_eq in E. contradiction.
        - split; [lia | exact Hdot]. }
      assert (G : forall st2, Path.end_ st2 = Path.end_ st1 ->
                  Path.matchedSlash st2 = Path.matchedSlash st1 ->
                  (Path.startDot st2 = Path.startDot st1 \/
                   (Path.startDot st2 = i /\ c = "."%char)) ->
                  loop_inv l (i - 1) st2).
      { intros st2 E1 E2 E3. destruct A as (A1 & A2 & A3 & A4 & _). split.
        - intros _. rewrite E1, E2. split; [exact A2|]. split; [lia|].
          replace (i - 1 + 1) with i by lia. exact A4.
        - intros Hd. rewrite E1. split; [exact A1|]. destruct E3 as [E3|[E3 ->]].
          + rewrite E3 in *. destruct (B Hd) as [Hlt Hdot]. split; [lia | exact Hdot].
          + rewrite E3. split; [lia | exact Hc]. }
      apply (IH (c :: suf) _ Hl'). apply G;
        destruct (Ascii.eqb c "."%char) eqn:Ed;
        try destruct (Path.startDot st1 =? -1) eqn:Es;
        try destruct (negb (Path.preDotState st1 =? 1));
        simpl; auto.
      all: right; split; [reflexivity|]; apply Ascii.eqb_eq; exact Ed.
Qed.

(** [path.extname] gives [""] or a string that starts with [.] and
    continues without [/]. *)
Lemma extname_get (p : string) :
  Path.extname p = "" \/
  (String.get 0 (Path.extname p) = Some "."%char /\
   forall j c, String.get j (Path.extname p) = Some c -> c <> "/"%char).
Proof.
  unfold Path.extname.
  set (l := list_ascii_of_string p).
  assert (Hn : Z.of_nat (String.length p) - 1 = Z.of_nat (length l) - 1)
    by (subst l; rewrite list_ascii_length; reflexivity).
  rewrite Hn.
  assert (O : loop_out l (Path.loop (rev l) (Z.of_nat (length l) - 1)
                          (Path.mkScan (-1) 0 (-1) true 0))).
  { apply (loop_ok l l []); [rewrite app_nil_r; reflexivity|].
    split; simpl; intros E; contradiction E; reflexivity. }
  set (st := Path.loop (rev l) (Z.of_nat (length l) - 1) (Path.mkScan (-1) 0 (-1) true 0)) in *.
  destruct ((Path.startDot st =? -1) || (Path.end_ st =? -1) || (Path.preDotState st =? 0)
            || ((Path.preDotState st =? 1) && (Path.startDot st =? Path.end_ st - 1)
                && (Path.startDot st =? Path.startPart st + 1))) eqn:Hcond;
    [left; reflexivity | right].
  apply orb_false_elim in Hcond as [Hcond _]. apply orb_false_elim in Hcond as [Hcond _].
  apply orb_false_elim in Hcond as [Hd _]. apply Z.eqb_neq in Hd.
  destruct (O Hd) as (H0 & Hle & Hdot & Hns).
  split.
  - rewrite substring_correct1 by lia. simpl. rewrite get_nth. exact Hdot.
  - intros j c Hj.
    destruct (Nat.lt_ge_cases j (Z.to_nat (Path.end_ st - Path.startDot st))) as [Hlt|Hge].
    + rewrite substring_correct1 in Hj by exact Hlt. rewrite get_nth in Hj.
      intros ->. apply (Hns (Z.of_nat j + Path.startDot st)); [lia|].
      rewrite <- Hj. f_equal. lia.
    + rewrite substring_correct2 in Hj by exact Hge. discriminate.
Qed.

Lemma extname_dot (p : string) :
  Path.extname p = "" \/
  exists rest, Path.extname p = String "." rest /\ ~ In "/"%char (list_ascii_of_string rest).
Proof.
  destruct (extname_get p) as [E|[H0 Hs]]; [left; exact E|right].
  destruct (Path.extname p) as [|c rest] eqn:E; [discriminate|].
  injection H0 as ->. exists rest. split; [reflexivity|].
  intros Hin. apply In_nth_error in Hin as [j Hj].
  apply (Hs (S j) "/"%char); [|reflexivity].
  simpl. rewrite get_nth. exact Hj.
Qed.

Lemma string_app_nil (s : string) : s ++ "" = s.
Proof. induction s as [|a s IH]; [reflexivity | exact (f_equal (String a) IH)]. Qed.

Lemma upload_mime_eq (m e : string) : upload_mime m e = Spec.resolve_mime m e.
Proof.
  unfold upload_mime, Spec.resolve_mime, Js.truthy.
  destruct (String.eqb m "") eqn:E; [apply String.eqb_eq in E; subst m|]; reflexivity.
Qed.

Lemma rawUserId_falsy (req : UploadRequest) :
  Forall (fun v => v = None \/ v = Some "") (Spec.identifier_fields req) ->
  Js.truthy (rawUserId req) = false.
Proof.
  intros He. pose proof (Facts.rawUserId_or req None) as E.
  rewrite (Facts.first_nonempty_empty _ He) in E. unfold Js.or in E at 1.
  destruct (Js.truthy (rawUserId req)) eqn:Ht; [|reflexivity].
  rewrite E in Ht. discriminate.
Qed.

Lemma continuations_length (n : nat) (cs : list ascii) (bs : list Z) (r : list ascii) :
  Uri.continuations n cs = Some (bs, r) -> (length r <= length cs)%nat.
Proof.
  revert cs bs; induction n as [|n IH]; intros cs bs; simpl.
  - intros [= _ <-]. lia.
  - destruct cs as [|c [|h1 [|h2 rest]]]; try discriminate.
    destruct (Ascii.eqb c "%"%char); [|discriminate].
    destruct (Uri.hex_digit h1), (Uri.hex_digit h2); try discriminate.
    destruct (Z.land _ 192 =? 128); [|discriminate].
    destruct (Uri.continuations n rest) as [[bs' r']|] eqn:E; [|discriminate].
    intros [= _ <-]. specialize (IH _ _ E). simpl. lia.
Qed.

(** Enough fuel is as good as any more. *)
Lemma decode_fuel :
  forall f1 f2 cs, (length cs < f1)%nat -> (length cs < f2)%nat ->
  Uri.decode f1 cs = Uri.decode f2 cs.
Proof.
  induction f1 as [|f1 IH]; intros [|f2] cs H1 H2; try lia.
  cbn [Uri.decode]. destruct cs as [|c rest]; [reflexivity|].
  simpl length in H1, H2.
  destruct (Ascii.eqb c "%"%char).
  - destruct rest as [|h1 [|h2 rest']]; try reflexivity.
    simpl length in H1, H2.
    destruct (Uri.hex_digit h1) as [a|], (Uri.hex_digit h2) as [b|]; try reflexivity.
    destruct (Uri.leading_ones (16 * a + b)) as [|[|n]].
    + rewrite (IH f2) by lia. reflexivity.
    + reflexivity.
    + destruct (5 <=? S (S n))%nat; [reflexivity|].
      destruct (Uri.continuations (S (S n) - 1) rest') as [[bs r]|] eqn:E; [|reflexivity].
      apply continuations_length in E.
      destruct (Uri.utf8_code_point _ bs); [|reflexivity].
      rewrite (IH f2) by lia. reflexivity.
  - rewrite (IH f2) by lia. reflexivity.
Qed.

Lemma decode_plain_app (p t : list ascii) :
  ~ In "%"%char p ->
  forall f, (length (p ++ t) < f)%nat ->
  Uri.decode f (p ++ t) = option_map (app (map Uri.code p)) (Uri.decode (S (length t)) t).
Proof.
  induction p as [|a p IH]; intros Hp f Hf.
  - cbn [app map] in *. rewrite (decode_fuel f (S (length t))) by lia.
    destruct (Uri.decode (S (length t)) t); reflexivity.
  - destruct f as [|f]; [simpl in Hf; lia|].
    assert (Ea : Ascii.eqb a "%"%char = false).
    { apply Ascii.eqb_neq. intros ->. apply Hp. left. reflexivity. }
    assert (Step : Uri.decode (S f) (a :: (p ++ t)) =
                   option_map (cons (Uri.code a)) (Uri.decode f (p ++ t)))
      by (cbn [Uri.decode]; rewrite Ea; reflexivity).
    rewrite <- app_comm_cons, Step. simpl in Hf.
    rewrite IH by (try (intros H; apply Hp; right; exact H); lia).
    destruct (Uri.decode (S (length t)) t); reflexivity.
Qed.

Lemma decodeURIComponent_plain_app (p t : string) :
  ~ In "%"%char (list_ascii_of_string p) ->
  Uri.decodeURIComponent (p ++ t) =
  option_map (app (Uri.units p)) (Uri.decodeURIComponent t).
Proof.
  intros Hp. unfold Uri.decodeURIComponent, Uri.units.
  rewrite list_ascii_app, decode_plain_app by (try exact Hp;
    rewrite <- (list_ascii_length (p ++ t)), list_ascii_app, length_app; lia).
  rewrite list_ascii_length. reflexivity.
Qed.

Lemma decodeURIComponent_bad_escape (t : string) :
  (forall h1 h2 rest, list_ascii_of_string t = h1 :: h2 :: rest ->
   Uri.hex_digit h1 = None \/ Uri.hex_digit h2 = None) ->
  Uri.decodeURIComponent ("%" ++ t) = None.
Proof.
  intros Ht. unfold Uri.decodeURIComponent.
  change (list_ascii_of_string ("%" ++ t)) with ("%"%char :: list_ascii_of_string t).
  change (String.length ("%" ++ t)) with (S (String.length t)).
  destruct (list_ascii_of_string t) as [|h1 [|h2 rest]] eqn:E; [reflexivity|reflexivity|].
  destruct (Ht h1 h2 rest eq_refl) as [Eh|Eh]; cbn [Uri.decode]; rewrite Eh; [reflexivity|].
  destruct (Uri.hex_digit h1); reflexivity.
Qed.

Lemma replace_slashes_no_slash (s : string) :
  ~ In "/"%char (list_ascii_of_string (Js.replace_slashes s)).
Proof.
  induction s as [|a s IH]; simpl; [tauto|].
  intros [H|H]; [|exact (IH H)].
  destruct (Ascii.eqb a "/"%char) eqn:E; [discriminate|].
  subst a. discriminate.
Qed.

Lemma string_app_cancel (s t1 t2 : string) : s ++ t1 = s ++ t2 -> t1 = t2.
Proof. induction s as [|a s IH]; simpl; [auto | intros [= E]; exact (IH E)]. Qed.

Lemma string_app_same_length (u1 u2 e1 e2 : string) :
  String.length u1 = String.length u2 -> u1 ++ e1 = u2 ++ e2 -> u1 = u2.
Proof.
  revert u2; induction u1 as [|a u1 IH]; intros [|b u2]; simpl; try discriminate; auto.
  intros [= Hl] [= -> E]. f_equal. exact (IH u2 Hl E).
Qed.

Lemma check_env_none (penv : Startup.ProcEnv) (keys : list string) :
  Forall (fun k => Js.truthy (penv k) = true) keys -> Startup.check_env penv keys = None.
Proof. induction 1 as [|k ks Hk _ IH]; simpl; [reflexivity | rewrite Hk; exact IH]. Qed.

Lemma check_env_some (penv : Startup.ProcEnv) (keys : list string) (msg : string) :
  Startup.check_env penv keys = Some msg ->
  exists pre k post, keys = (pre ++ k :: post)%list /\
    Forall (fun k' => Js.truthy (penv k') = true) pre /\
    Js.truthy (penv k) = false /\ msg = "Missing required env: " ++ k.
Proof.
  induction keys as [|k ks IH]; simpl; [discriminate|].
  destruct (Js.truthy (penv k)) eqn:Ek; simpl.
  - intros H. destruct (IH H) as (pre & k' & post & -> & Hpre & Hk' & Hm).
    exists (k :: pre), k', post. split; [reflexivity|]. split; [constructor; assumption|].
    split; assumption.
  - intros [= <-]. exists [], k, ks. repeat split; auto.
Qed.

(** What a run of the upload route that answers with an upload body did. *)
Lemma upload_route_ok env c uuid st req r st' log url key :
  upload_route env c uuid st req = (r, st', log) -> body r = UploadOk url key ->
  exists f, file req = Some f /\ multer_check f = None /\
    key = upload_key (PROFILE_PREFIX env) (userId (rawUserId req) uuid) (upload_ext (originalname f)) /\
    st' = <[key := mkObj (buffer f) (upload_mime (mimetype f) (upload_ext (originalname f)))
                        UPLOAD_CACHE_CONTROL]> st.
Proof.
  unfold upload_route. destruct (file req) as [f|] eqn:Hf.
  - destruct (multer_check f) as [e|] eqn:Hm.
    + intros [= <- _ _] Hb. destruct (Facts.error_middleware_shape e) as [_ [m Hm']].
      congruence.
    + unfold upload_handler. rewrite Hf.
      destruct (put c _ _ _ _); [intros [= <- _ _]; discriminate|].
      destruct (Js.truthy (S3_PUBLIC_BASE_URL env)).
      * intros [= <- <- _] Hb. injection Hb as _ <-. exists f. auto.
      * destruct (signedUrl c _ _); [intros [= <- _ _]; discriminate|].
        intros [= <- <- _] Hb. injection Hb as _ <-. exists f. auto.
  - unfold upload_handler. rewrite Hf. intros [= <- _ _]. discriminate.
Qed.

Lemma readme_route_ok env c st req r st' log url key :
  Readme.upload_route env c st req = (r, st', log) -> body r = UploadOk url key ->
  exists f raw, file req = Some f /\ multer_check f = None /\ rawUserId req = Some raw /\
    Js.truthy (Some raw) = true /\
    key = PROFILE_PREFIX env ++ "/" ++ Js.replace_slashes raw /\
    st' = <[key := mkObj (buffer f)
                     (upload_mime (mimetype f) (Js.toLowerCase (Path.extname (originalname f))))
                     Readme.NO_STORE]> st.
Proof.
  assert (Eo : forall e, match Js.or (Some e) (Some "") with Some e' => e' | None => "" end = e).
  { intros e. unfold Js.or, Js.truthy. destruct (String.eqb e "") eqn:E; simpl; [|reflexivity].
    symmetry. apply String.eqb_eq. exact E. }
  unfold Readme.upload_route. destruct (file req) as [f|] eqn:Hf.
  - destruct (multer_check f) as [e|] eqn:Hm.
    + intros [= <- _ _] Hb. destruct (Facts.error_middleware_shape e) as [_ [m Hm']].
      congruence.
    + unfold Readme.upload_handler. rewrite Hf. rewrite Eo.
      destruct (rawUserId req) as [raw|] eqn:Hr; [|intros [= <- _ _]; discriminate].
      destruct (Js.truthy (Some raw)) eqn:Ht; [|intros [= <- _ _]; discriminate].
      destruct (put c _ _ _ _); [intros [= <- _ _]; discriminate|].
      destruct (Js.truthy (S3_PUBLIC_BASE_URL env)).
      * intros [= <- <- _] Hb. injection Hb as _ <-. exists f, raw. auto 7.
      * destruct (signedUrl c _ _); [intros [= <- _ _]; discriminate|].
        intros [= <- <- _] Hb. injection Hb as _ <-. exists f, raw. auto 7.
  - unfold Readme.upload_handler. rewrite Hf. intros [= <- _ _]. discriminate.
Qed.

End MoreFacts.

(* ------------------------------------------------------------------ *)
(** * Further properties of the code *)

Module Extra.
Import Server.

Lemma check_env_none_inv (penv : Startup.ProcEnv) (keys : list string) :
  Startup.check_env penv keys = None -> Forall (fun k => Js.truthy (penv k) = true) keys.
Proof.
  induction keys as [|k ks IH]; simpl; [constructor|].
  destruct (Js.truthy (penv k)) eqn:Ek; simpl; [|discriminate].
  intros H. constructor; [exact Ek | exact (IH H)].
Qed.

(** The process starts listening exactly when the four required variables
    are non-empty, on [PORT] (default 4000); otherwise it exits with code 1
    and names the first missing variable in the order of [requiredEnv]. *)
Theorem start_env_check (penv : Startup.ProcEnv) :
  ((exists p, Startup.start penv = Startup.Listening p) <->
   Forall (fun k => Js.truthy (penv k) = true) Startup.requiredEnv) /\
  (forall p, Startup.start penv = Startup.Listening p -> p = Startup.PORT penv) /\
  (forall code msg, Startup.start penv = Startup.Exit code msg ->
   code = 1 /\
   exists pre k post, Startup.requiredEnv = (pre ++ k :: post)%list /\
     Forall (fun k' => Js.truthy (penv k') = true) pre /\
     Js.truthy (penv k) = false /\ msg = "Missing required env: " ++ k).
Proof.
  unfold Startup.start.
  destruct (Startup.check_env penv Startup.requiredEnv) as [m|] eqn:E.
  - split; [split|split].
    + intros [p Hp]. discriminate.
    + intros HF. rewrite (MoreFacts.check_env_none _ _ HF) in E. discriminate.
    + intros p Hp. discriminate.
    + intros code msg [= <- <-]. split; [reflexivity|].
      exact (MoreFacts.check_env_some _ _ _ E).
  - split; [split|split].
    + intros _. exact (check_env_none_inv _ _ E).
    + intros _. eexists. reflexivity.
    + intros p [= <-]. reflexivity.
    + intros code msg H. discriminate.
Qed.

(** The error middleware answers 400 exactly for a multer [LIMIT_FILE_SIZE]
    error or a message containing "Only images"; any other error (another
    multer code included) is a 500 with its message, or "Server error"
    when the message is empty. *)
Theorem error_middleware_status (e : MwError) :
  (status (error_middleware e) = 400 <->
   (exists m, e = MulterError "LIMIT_FILE_SIZE" m) \/
   Js.includes (match e with MulterError _ m | PlainError m => m end) "Only images" = true) /\
  (status (error_middleware e) <> 400 ->
   error_middleware e =
     mkResponse 500 (ErrorBody (message_or (match e with MulterError _ m | PlainError m => m end)
                                           "Server error"))).
Proof.
  destruct e as [code msg|msg]; simpl.
  - destruct (String.eqb code "LIMIT_FILE_SIZE") eqn:Ec.
    + apply String.eqb_eq in Ec. subst code. simpl.
      split; [split; [intros _; left; eexists; reflexivity | intros _; reflexivity]|].
      intros H. contradiction H. reflexivity.
    + destruct (Js.includes msg "Only images") eqn:Ei; simpl.
      * split; [split; [intros _; right; reflexivity | intros _; reflexivity]|].
        intros H. contradiction H. reflexivity.
      * split; [split; [discriminate|]|intros _; reflexivity].
        intros [[m Hm]|Hi]; [|discriminate].
        injection Hm as -> _. discriminate.
  - destruct (Js.includes msg "Only images") eqn:Ei; simpl.
    + split; [split; [intros _; right; reflexivity | intros _; reflexivity]|].
      intros H. contradiction H. reflexivity.
    + split; [split; [discriminate|]|intros _; reflexivity].
      intros [[m Hm]|Hi]; [discriminate | discriminate].
Qed.

(** A refused put is answered 500 with its message (or "Upload failed"),
    leaves the store unchanged and requests no signed URL. *)
Theorem upload_put_failure (env : Env) (c : Client) (uuid : string) (st : Store)
    (req : UploadRequest) (f : File) (msg : string)
    (Hf : file req = Some f) (Hm : multer_check f = None)
    (Hp : put c (upload_key (PROFILE_PREFIX env) (userId (rawUserId req) uuid)
                            (upload_ext (originalname f)))
              (buffer f) (upload_mime (mimetype f) (upload_ext (originalname f)))
              UPLOAD_CACHE_CONTROL = Some msg) :
  upload_route env c uuid st req =
    (mkResponse 500 (ErrorBody (message_or msg "Upload failed")), st,
     [PutObject (upload_key (PROFILE_PREFIX env) (userId (rawUserId req) uuid)
                            (upload_ext (originalname f)))
                (upload_mime (mimetype f) (upload_ext (originalname f))) UPLOAD_CACHE_CONTROL]).
Proof.
  rewrite (Facts.upload_route_accepted env c uuid st req f Hf Hm).
  unfold upload_handler. rewrite Hf. rewrite Hp. reflexivity.
Qed.

(** Two successful uploads with the same identifier and the same file
    extension write the same key: whatever the random UUIDs, the second
    one leaves the store as if the first had not happened. *)
Theorem upload_last_write_wins (env : Env) (c : Client) (uuid1 uuid2 : string) (st : Store)
    (req1 req2 : UploadRequest) (f2 : File)
    (r1 r2 : Response) (st1 st2 : Store) (l1 l2 : list Call) (u1 k1 u2 k2 : string)
    (Hid : rawUserId req1 = rawUserId req2) (Ht : Js.truthy (rawUserId req1) = true)
    (Hf2 : file req2 = Some f2)
    (Hext : forall f1, file req1 = Some f1 -> Path.extname (originalname f1) = Path.extname (originalname f2))
    (H1 : upload_route env c uuid1 st req1 = (r1, st1, l1)) (B1 : body r1 = UploadOk u1 k1)
    (H2 : upload_route env c uuid2 st1 req2 = (r2, st2, l2)) (B2 : body r2 = UploadOk u2 k2) :
  k1 = k2 /\
  st2 = <[k2 := mkObj (buffer f2) (upload_mime (mimetype f2) (upload_ext (originalname f2)))
                      UPLOAD_CACHE_CONTROL]> st.
Proof.
  destruct (MoreFacts.upload_route_ok _ _ _ _ _ _ _ _ _ _ H1 B1) as (g1 & Hg1 & _ & Hk1 & Hs1).
  destruct (MoreFacts.upload_route_ok _ _ _ _ _ _ _ _ _ _ H2 B2) as (g2 & Hg2 & _ & Hk2 & Hs2).
  rewrite Hf2 in Hg2. injection Hg2 as <-.
  assert (Eu : forall u, userId (rawUserId req1) u = Js.replace_slashes
                 (match rawUserId req1 with Some s => s | None => u end)).
  { intros u. unfold userId, Js.or. rewrite Ht. reflexivity. }
  assert (Ek : k1 = k2).
  { rewrite Hk1, Hk2, <- Hid, !Eu. unfold upload_ext. rewrite (Hext g1 Hg1).
    destruct (rawUserId req1) as [s|] eqn:Er; [reflexivity | discriminate Ht]. }
  split; [exact Ek|].
  rewrite Hs2, Hs1, <- Ek. apply insert_insert_eq.
Qed.

(** Requests without an identifier never share a key while the random
    UUIDs differ: the keys of their puts differ whatever the files, the
    stores and the outcomes of the storage calls. *)
Theorem uuid_keys_distinct (env : Env) (c1 c2 : Client) (u1 u2 : string) (st1 st2 : Store)
    (req1 req2 : UploadRequest) (f1 f2 : File)
    (Hf1 : file req1 = Some f1) (Hf2 : file req2 = Some f2)
    (Hm1 : multer_check f1 = None) (Hm2 : multer_check f2 = None)
    (He1 : Forall (fun v => v = None \/ v = Some "") (Spec.identifier_fields req1))
    (He2 : Forall (fun v => v = None \/ v = Some "") (Spec.identifier_fields req2))
    (Hu1 : Spec.uuid_format u1 = true) (Hu2 : Spec.uuid_format u2 = true) (Hne : u1 <> u2) :
  Spec.put_key (upload_route env c1 u1 st1 req1) <> Spec.put_key (upload_route env c2 u2 st2 req2).
Proof.
  rewrite (Facts.upload_route_accepted _ _ _ _ _ _ Hf1 Hm1),
          (Facts.upload_route_accepted _ _ _ _ _ _ Hf2 Hm2).
  destruct (Facts.upload_handler_put env c1 u1 st1 req1 f1 Hf1) as [rest1 E1].
  destruct (Facts.upload_handler_put env c2 u2 st2 req2 f2 Hf2) as [rest2 E2].
  unfold Spec.put_key. rewrite E1, E2. intros [= E].
  assert (Eu : forall req u, Forall (fun v => v = None \/ v = Some "") (Spec.identifier_fields req) ->
                 Spec.uuid_format u = true -> userId (rawUserId req) u = u).
  { intros req u He Hu. unfold userId.
    rewrite Facts.rawUserId_or, (Facts.first_nonempty_empty _ He). simpl.
    apply Facts.replace_slashes_id, Facts.uuid_no_slash, Hu. }
  rewrite (Eu req1 u1 He1 Hu1), (Eu req2 u2 He2 Hu2) in E.
  unfold upload_key in E.
  apply MoreFacts.string_app_cancel, (MoreFacts.string_app_cancel "/") in E.
  assert (Hlen : String.length u1 = String.length u2).
  { unfold Spec.uuid_format in Hu1, Hu2.
    apply andb_prop in Hu1 as [Hl1 _], Hu2 as [Hl2 _].
    apply Nat.eqb_eq in Hl1, Hl2. congruence. }
  exact (Hne (MoreFacts.string_app_same_length u1 u2 _ _ Hlen E)).
Qed.

(** [path.extname] gives [""] or [.] followed by characters none of which
    is [/]. *)
Theorem extname_shape (p : string) :
  Path.extname p = "" \/
  exists rest, Path.extname p = String "." rest /\ ~ In "/"%char (list_ascii_of_string rest).
Proof. exact (MoreFacts.extname_dot p). Qed.

(** The key of every put the upload route sends is [PROFILE_PREFIX], [/],
    an identifier segment without [/], and an extension: [.] followed by
    characters without [/]. *)
Theorem upload_key_shape (env : Env) (c : Client) (uuid : string) (st : Store)
    (req : UploadRequest) (f : File) (Hf : file req = Some f) (Hm : multer_check f = None) :
  exists uid rest,
    Spec.put_key (upload_route env c uuid st req) =
      Some (PROFILE_PREFIX env ++ "/" ++ uid ++ String "." rest) /\
    ~ In "/"%char (list_ascii_of_string uid) /\ ~ In "/"%char (list_ascii_of_string rest).
Proof.
  rewrite (Facts.upload_route_accepted _ _ _ _ _ _ Hf Hm).
  destruct (Facts.upload_handler_put env c uuid st req f Hf) as [rest0 E].
  unfold Spec.put_key. rewrite E. unfold upload_key, upload_ext, Js.or, Js.truthy.
  destruct (MoreFacts.extname_dot (originalname f)) as [Ee|(rest & Ee & Hr)]; rewrite Ee; simpl.
  - exists (userId (rawUserId req) uuid), "jpg". split; [reflexivity|].
    split; [apply MoreFacts.replace_slashes_no_slash|]. simpl. intuition discriminate.
  - exists (userId (rawUserId req) uuid), rest. split; [reflexivity|].
    split; [apply MoreFacts.replace_slashes_no_slash | exact Hr].
Qed.

(** A route parameter without [%] is left as it is by decodeURIComponent,
    which then decodes what follows it on its own; its signed URL is
    requested for the parameter verbatim. *)
Theorem profile_pic_plain_param (c : Client) (st : Store) (p : string)
    (Hp : ~ In "%"%char (list_ascii_of_string p)) :
  (forall t, Uri.decodeURIComponent (p ++ t) =
             option_map (app (Uri.units p)) (Uri.decodeURIComponent t)) /\
  snd (profile_pic_route c st p) = [SignGetObject (Uri.units p) GET_URL_EXPIRES_IN].
Proof.
  split; [intros t; exact (MoreFacts.decodeURIComponent_plain_app p t Hp)|].
  assert (Hd : Uri.decodeURIComponent p = Some (Uri.units p)).
  { rewrite <- (MoreFacts.string_app_nil p) at 1.
    rewrite (MoreFacts.decodeURIComponent_plain_app p "" Hp). simpl.
    rewrite app_nil_r. reflexivity. }
  unfold profile_pic_route. rewrite Hd.
  destruct (signedUrl c _ _); reflexivity.
Qed.

(** A [%] not followed by two hexadecimal digits, after a part without
    [%], makes the lookup answer 500 "URI malformed" with no request to
    the storage client. *)
Theorem profile_pic_bad_escape (c : Client) (st : Store) (p t : string)
    (Hp : ~ In "%"%char (list_ascii_of_string p))
    (Ht : forall h1 h2 rest, list_ascii_of_string t = h1 :: h2 :: rest ->
          Uri.hex_digit h1 = None \/ Uri.hex_digit h2 = None) :
  profile_pic_route c st (p ++ "%" ++ t) = (mkResponse 500 (ErrorBody "URI malformed"), st, []).
Proof.
  unfold profile_pic_route.
  rewrite (MoreFacts.decodeURIComponent_plain_app p ("%" ++ t) Hp),
          (MoreFacts.decodeURIComponent_bad_escape t Ht).
  reflexivity.
Qed.

(** A failing storage call on the read routes is a 500 carrying the
    error's message, or the route's own text when the message is empty,
    and the store stays as it was. *)
Theorem read_route_failures (env : Env) (c : Client) (st : Store) (param : string)
    (key : list Z) (msg : string) :
  (listObjects c (PROFILE_PREFIX env ++ "/") LIST_MAX_KEYS = inl msg ->
   profile_pics_route env c st =
     (mkResponse 500 (ErrorBody (message_or msg "Failed to list")), st,
      [ListObjects (PROFILE_PREFIX env ++ "/") LIST_MAX_KEYS])) /\
  (Uri.decodeURIComponent param = Some key -> signedUrl c key GET_URL_EXPIRES_IN = inl msg ->
   profile_pic_route c st param =
     (mkResponse 500 (ErrorBody (message_or msg "Failed to get URL")), st,
      [SignGetObject key GET_URL_EXPIRES_IN])).
Proof.
  split.
  - intros E. unfold profile_pics_route. rewrite E. reflexivity.
  - intros Ed Es. unfold profile_pic_route. rewrite Ed, Es. reflexivity.
Qed.

(** The README's handler refuses a request whose identifier fields are all
    absent or empty: 400 "Missing userId (Shopify customer ID).", no
    storage request, the store unchanged. *)
Theorem readme_missing_identifier (env : Env) (c : Client) (st : Store)
    (req : UploadRequest) (f : File) (Hf : file req = Some f) (Hm : multer_check f = None)
    (He : Forall (fun v => v = None \/ v = Some "") (Spec.identifier_fields req)) :
  Readme.upload_route env c st req =
    (mkResponse 400 (ErrorBody "Missing userId (Shopify customer ID)."), st, []).
Proof.
  pose proof (MoreFacts.rawUserId_falsy req He) as Ht.
  unfold Readme.upload_route. rewrite Hf, Hm. unfold Readme.upload_handler. rewrite Hf.
  destruct (rawUserId req) as [raw|]; [rewrite Ht|]; reflexivity.
Qed.

(** With the README's handler the key is [PROFILE_PREFIX/identifier] with
    its [/] replaced, whatever the file name: a second successful upload
    for the same identifier replaces the first, even with another
    extension, and the store is as if only the second had happened. *)
Theorem readme_last_write_wins (env : Env) (c : Client) (st : Store)
    (req1 req2 : UploadRequest) (f2 : File)
    (r1 r2 : Response) (st1 st2 : Store) (l1 l2 : list Call) (u1 k1 u2 k2 : string)
    (Hid : rawUserId req1 = rawUserId req2) (Hf2 : file req2 = Some f2)
    (H1 : Readme.upload_route env c st req1 = (r1, st1, l1)) (B1 : body r1 = UploadOk u1 k1)
    (H2 : Readme.upload_route env c st1 req2 = (r2, st2, l2)) (B2 : body r2 = UploadOk u2 k2) :
  k1 = k2 /\
  (exists raw, rawUserId req2 = Some raw /\ k2 = PROFILE_PREFIX env ++ "/" ++ Js.replace_slashes raw) /\
  st2 = <[k2 := mkObj (buffer f2)
                  (upload_mime (mimetype f2) (Js.toLowerCase (Path.extname (originalname f2))))
                  Readme.NO_STORE]> st.
Proof.
  destruct (MoreFacts.readme_route_ok _ _ _ _ _ _ _ _ _ H1 B1)
    as (g1 & raw1 & _ & _ & Hr1 & _ & Hk1 & Hs1).
  destruct (MoreFacts.readme_route_ok _ _ _ _ _ _ _ _ _ H2 B2)
    as (g2 & raw2 & Hg2 & _ & Hr2 & _ & Hk2 & Hs2).
  rewrite Hf2 in Hg2. injection Hg2 as <-.
  assert (Ek : k1 = k2) by congruence.
  split; [exact Ek|]. split; [exists raw2; split; assumption|].
  rewrite Hs2, Hs1, <- Ek. apply insert_insert_eq.
Qed.

(** The README's handler derives the content type from the lower-cased
    extension and always asks for [no-store, max-age=0]: its first request
    is the put of [PROFILE_PREFIX/identifier] with the spec's resolver
    applied to the lower-cased extension. *)
Theorem readme_put_request (env : Env) (c : Client) (st : Store) (req : UploadRequest)
    (f : File) (raw : string) (Hf : file req = Some f) (Hm : multer_check f = None)
    (Hr : rawUserId req = Some raw) (Ht : Js.truthy (Some raw) = true) :
  exists rest,
    snd (Readme.upload_route env c st req) =
      PutObject (PROFILE_PREFIX env ++ "/" ++ Js.replace_slashes raw)
                (Spec.resolve_mime (mimetype f) (Js.toLowerCase (Path.extname (originalname f))))
                Readme.NO_STORE :: rest.
Proof.
  assert (Eo : match Js.or (Some (Path.extname (originalname f))) (Some "") with
               | Some e' => e' | None => "" end = Path.extname (originalname f)).
  { unfold Js.or, Js.truthy. destruct (String.eqb (Path.extname (originalname f)) "") eqn:E;
      simpl; [|reflexivity].
    symmetry. apply String.eqb_eq. exact E. }
  unfold Readme.upload_route. rewrite Hf, Hm. unfold Readme.upload_handler.
  rewrite Hf, Hr, Ht, Eo, MoreFacts.upload_mime_eq.
  destruct (put c _ _ _ _); [eexists; reflexivity|].
  destruct (Js.truthy (S3_PUBLIC_BASE_URL env)); [eexists; reflexivity|].
  destruct (signedUrl c _ _); eexists; reflexivity.
Qed.

(** Run against the server, src/test-api.js exits with 0 exactly when the
    put of its file under [PROFILE_PREFIX/test-user-<now>.jpg] succeeds and
    the answer carries a non-empty url: a public base URL is configured or
    signing returns a non-empty URL. The health check never fails it. *)
Theorem test_script_exit (env : Env) (c : Client) (uuid : string) (st : Store) (now : string) :
  TestApi.main env c uuid st now = 0 <->
  (put c (upload_key (PROFILE_PREFIX env) (Js.replace_slashes ("test-user-" ++ now)) ".jpg")
       (TestApi.bytes_of "fake image content") "image/jpeg" UPLOAD_CACHE_CONTROL = None /\
   (Js.truthy (S3_PUBLIC_BASE_URL env) = true \/
    exists u, signedUrl c (Uri.units (upload_key (PROFILE_PREFIX env)
                                        (Js.replace_slashes ("test-user-" ++ now)) ".jpg"))
                        UPLOAD_EXPIRES_IN = inr u /\ u <> "")).
Proof.
  unfold TestApi.main.
  assert (Hh : TestApi.testHealth (snd Bodies.health_route) = true) by reflexivity.
  rewrite Hh.
  set (f := mkFile "test.jpg" "image/jpeg" (TestApi.bytes_of "fake image content")).
  assert (Hm : multer_check f = None) by reflexivity.
  assert (Hf : file (TestApi.upload_form now) = Some f) by reflexivity.
  rewrite (Facts.upload_route_accepted _ _ _ _ _ _ Hf Hm).
  assert (Hu : userId (rawUserId (TestApi.upload_form now)) uuid =
               Js.replace_slashes ("test-user-" ++ now)) by reflexivity.
  assert (He : upload_ext (originalname f) = ".jpg") by reflexivity.
  assert (Hmi : upload_mime (mimetype f) ".jpg" = "image/jpeg") by reflexivity.
  unfold upload_handler. rewrite Hf, Hu, He, Hmi.
  change (buffer f) with (TestApi.bytes_of "fake image content").
  set (key := upload_key (PROFILE_PREFIX env) (Js.replace_slashes ("test-user-" ++ now)) ".jpg").
  assert (Hne : forall a b, String.eqb (a ++ "/" ++ b) "" = false) by (intros [|x a] b; reflexivity).
  destruct (put c key _ _ _) as [m|] eqn:Ep.
  - split; [discriminate | intros [H _]; discriminate].
  - destruct (Js.truthy (S3_PUBLIC_BASE_URL env)) eqn:Eb.
    + unfold TestApi.testUpload. simpl. rewrite Hne. simpl.
      split; [intros _; split; [reflexivity | left; reflexivity] | reflexivity].
    + destruct (signedUrl c (Uri.units key) UPLOAD_EXPIRES_IN) as [m|u] eqn:Es.
      * split; [discriminate|]. intros [_ [H|(u & H & _)]]; discriminate.
      * unfold TestApi.testUpload. simpl.
        destruct (String.eqb u "") eqn:Eu; simpl.
        -- split; [discriminate|]. intros [_ [H|(u' & H & Hn)]]; [discriminate|].
           injection H as <-. apply String.eqb_eq in Eu. contradiction.
        -- split; [|reflexivity]. intros _. split; [reflexivity|]. right. exists u.
           split; [reflexivity|]. intros ->. discriminate.
Qed.

End Extra.

(* ------------------------------------------------------------------ *)
(** * The further properties at concrete inputs *)

Module ExtraWitnesses.
Import Server Sample Sample2.

Lemma upload_put_failure_witness :
  upload_route env_signed client_put_fails uuid1 ∅ (req_with (Some "u1") png_file) =
    (mkResponse 500 (ErrorBody "Access Denied"), ∅,
     [PutObject "profile-pics/u1.png" "image/png" UPLOAD_CACHE_CONTROL]).
Proof.
  exact (Extra.upload_put_failure env_signed client_put_fails uuid1 ∅
           (req_with (Some "u1") png_file) png_file "Access Denied" eq_refl eq_refl eq_refl).
Defined.

Lemma upload_last_write_wins_witness :
  "profile-pics/gid:--shopify-Customer-123.png" = "profile-pics/gid:--shopify-Customer-123.png" /\
  snd (fst run_b) =
    <["profile-pics/gid:--shopify-Customer-123.png" :=
        mkObj [Byte.x89; Byte.x51] "image/png" UPLOAD_CACHE_CONTROL]> ∅.
Proof.
  refine (Extra.upload_last_write_wins env_public client_ok uuid1 uuid2 ∅
            (req_with gid png_file) (req_with gid png_file_b) png_file_b
            (fst (fst run_a)) (fst (fst run_b)) (snd (fst run_a)) (snd (fst run_b))
            (snd run_a) (snd run_b)
            "https://cdn.example.com/profile-pics/gid:--shopify-Customer-123.png"
            "profile-pics/gid:--shopify-Customer-123.png"
            "https://cdn.example.com/profile-pics/gid:--shopify-Customer-123.png"
            "profile-pics/gid:--shopify-Customer-123.png"
            eq_refl eq_refl eq_refl _ eq_refl eq_refl eq_refl eq_refl).
  intros f1 H. injection H as <-. reflexivity.
Defined.

Lemma uuid_keys_distinct_witness :
  Spec.put_key (upload_route env_signed client_ok uuid1 ∅ (req_with None png_file)) <>
  Spec.put_key (upload_route env_signed client_ok uuid2 ∅ (req_with None gif_file)).
Proof.
  apply (Extra.uuid_keys_distinct env_signed client_ok client_ok uuid1 uuid2 ∅ ∅
           (req_with None png_file) (req_with None gif_file) png_file gif_file
           eq_refl eq_refl eq_refl eq_refl).
  - unfold Spec.identifier_fields; repeat (apply List.Forall_cons; [auto|]); apply List.Forall_nil.
  - unfold Spec.identifier_fields; repeat (apply List.Forall_cons; [auto|]); apply List.Forall_nil.
  - reflexivity.
  - reflexivity.
  - unfold uuid1, uuid2. discriminate.
Defined.

Lemma upload_key_shape_witness :
  exists uid rest,
    Spec.put_key (upload_route env_signed client_ok uuid1 ∅ gid_req) =
      Some (PROFILE_PREFIX env_signed ++ "/" ++ uid ++ String "." rest) /\
    ~ In "/"%char (list_ascii_of_string uid) /\ ~ In "/"%char (list_ascii_of_string rest).
Proof.
  exact (Extra.upload_key_shape env_signed client_ok uuid1 ∅ gid_req png_file eq_refl eq_refl).
Defined.

Lemma profile_pic_plain_param_witness :
  (forall t, Uri.decodeURIComponent ("profile-pics/u.jpg" ++ t) =
             option_map (app (Uri.units "profile-pics/u.jpg")) (Uri.decodeURIComponent t)) /\
  snd (profile_pic_route client_ok ∅ "profile-pics/u.jpg") =
    [SignGetObject (Uri.units "profile-pics/u.jpg") GET_URL_EXPIRES_IN].
Proof.
  apply Extra.profile_pic_plain_param. simpl. intuition discriminate.
Defined.

Lemma profile_pic_bad_escape_witness :
  profile_pic_route client_ok ∅ ("photo" ++ "%" ++ "zz") =
    (mkResponse 500 (ErrorBody "URI malformed"), ∅, []).
Proof.
  apply Extra.profile_pic_bad_escape.
  - simpl. intuition discriminate.
  - intros h1 h2 rest E. injection E as <- <- _. left. reflexivity.
Defined.

Lemma readme_missing_identifier_witness :
  Readme.upload_route env_public client_ok ∅ (req_with (Some "") png_file) =
    (mkResponse 400 (ErrorBody "Missing userId (Shopify customer ID)."), ∅, []).
Proof.
  apply (Extra.readme_missing_identifier env_public client_ok ∅ (req_with (Some "") png_file)
           png_file eq_refl eq_refl).
  unfold Spec.identifier_fields; repeat (apply List.Forall_cons; [auto|]); apply List.Forall_nil.
Defined.

Lemma readme_last_write_wins_witness :
  "profile-pics/gid:--shopify-Customer-123" = "profile-pics/gid:--shopify-Customer-123" /\
  (exists raw, rawUserId (req_with gid gif_file) = Some raw /\
     "profile-pics/gid:--shopify-Customer-123" = PROFILE_PREFIX env_public ++ "/" ++ Js.replace_slashes raw) /\
  snd (fst readme_b) =
    <["profile-pics/gid:--shopify-Customer-123" :=
        mkObj [Byte.x47; Byte.x49] "image/gif" Readme.NO_STORE]> ∅.
Proof.
  exact (Extra.readme_last_write_wins env_public client_ok ∅
           (req_with gid png_file) (req_with gid gif_file) gif_file
           (fst (fst readme_a)) (fst (fst readme_b)) (snd (fst readme_a)) (snd (fst readme_b))
           (snd readme_a) (snd readme_b)
           "https://cdn.example.com/profile-pics/gid:--shopify-Customer-123"
           "profile-pics/gid:--shopify-Customer-123"
           "https://cdn.example.com/profile-pics/gid:--shopify-Customer-123"
           "profile-pics/gid:--shopify-Customer-123"
           eq_refl eq_refl eq_refl eq_refl eq_refl eq_refl).
Defined.

Lemma readme_put_request_witness :
  exists rest,
    snd (Readme.upload_route env_signed client_ok ∅ (req_with (Some "u1") octet_png)) =
      PutObject "profile-pics/u1" "image/png" Readme.NO_STORE :: rest.
Proof.
  exact (Extra.readme_put_request env_signed client_ok ∅ (req_with (Some "u1") octet_png)
           octet_png "u1" eq_refl eq_refl eq_refl eq_refl).
Defined.

End ExtraWitnesses.
